(** * Project Samarth: the ETL transforms, the load step and the query tools

    A shallow embedding of [src/et1.py] (fetch_data, transform_agri_data,
    transform_climate_data, load_to_duckdb and the script that chains them),
    of the three tools of [src/agent.py] (get_top_crops_by_production,
    get_average_annual_rainfall, correlate_crop_and_climate) and its chat
    loop, and of the session state that [src/app.py] keeps.

    Modelling conventions.
    - Text is a [string] of bytes; letter case, white space and the LIKE
      wildcards are those of ASCII.
    - A float64 / DOUBLE is [double]: not-a-number, the two infinities, or a
      finite value held as an exact rational ([Qc]); sums are exact.  A Python
      int and an int64 cell are unbounded integers.
    - A pandas frame is a list of labelled rows, each row a finite map from
      column label to cell; a Python exception is a value of [result].
    - The database file is a finite map from table name to table; a stored
      table keeps the cells of the frame it was created from, and a statement
      reads them under the column types of the cleaned frames.
    - The network and the language model are outside the program: a request
      is a function from the URL to what [requests.get] ends in, the agent a
      function from the input and the history to its output, if any.
    - The tools splice their text argument into the statement.  The facts
      about the tools are stated for arguments without an apostrophe
      ([sql_literal_safe]), for which the statement is the one in the source. *)

From Stdlib Require Import ZArith QArith Qcanon String Ascii DecimalString.
From stdpp Require Import base option list numbers strings gmap fin_maps sorting.

Local Open Scope Z_scope.

(* ===================================================================== *)
(** * Text *)
(* ===================================================================== *)

Definition code (c : ascii) : nat := nat_of_ascii c.

Definition is_upper (c : ascii) : bool := ((65 <=? code c) && (code c <=? 90))%nat.
Definition is_lower (c : ascii) : bool := ((97 <=? code c) && (code c <=? 122))%nat.
Definition is_alpha (c : ascii) : bool := is_upper c || is_lower c.

(** Python's [str.isspace] on ASCII: tab, line feed, vertical tab, form feed,
    carriage return, the four separators 28..31, and the space. *)
Definition is_space (c : ascii) : bool :=
  (((9 <=? code c) && (code c <=? 13)) || ((28 <=? code c) && (code c <=? 32)))%nat.

Definition to_lower (c : ascii) : ascii :=
  if is_upper c then ascii_of_nat (code c + 32) else c.
Definition to_upper (c : ascii) : ascii :=
  if is_lower c then ascii_of_nat (code c - 32) else c.

(** [lower]: the case folding that ILIKE applies to both of its operands. *)
Fixpoint lower (s : string) : string :=
  match s with
  | EmptyString => EmptyString
  | String c s' => String (to_lower c) (lower s')
  end.

(** [str.strip()] *)
Fixpoint lstrip (s : string) : string :=
  match s with
  | EmptyString => EmptyString
  | String c s' => if is_space c then lstrip s' else s
  end.

Fixpoint rstrip (s : string) : string :=
  match s with
  | EmptyString => EmptyString
  | String c s' =>
      match rstrip s' with
      | EmptyString => if is_space c then EmptyString else String c EmptyString
      | r => String c r
      end
  end.

Definition strip (s : string) : string := rstrip (lstrip s).

(** [str.title()]: a letter that follows a letter is lower-cased, any other
    letter is upper-cased. *)
Fixpoint title_from (previous_is_cased : bool) (s : string) : string :=
  match s with
  | EmptyString => EmptyString
  | String c s' =>
      if is_alpha c
      then String (if previous_is_cased then to_lower c else to_upper c) (title_from true s')
      else String c (title_from false s')
  end.

Definition title (s : string) : string := title_from false s.

(** SQL [LIKE] without an escape character: [%] stands for any run of
    characters, [_] for exactly one. *)
Definition percent : ascii := "%"%char.
Definition underscore : ascii := "_"%char.

Fixpoint like (pattern s : string) : bool :=
  match pattern with
  | EmptyString => match s with EmptyString => true | _ => false end
  | String p pattern' =>
      if Ascii.eqb p percent then
        (fix any_run (t : string) : bool :=
           like pattern' t ||
           match t with
           | EmptyString => false
           | String _ t' => any_run t'
           end) s
      else
        match s with
        | EmptyString => false
        | String c s' =>
            (Ascii.eqb p underscore || Ascii.eqb p c) && like pattern' s'
        end
  end.

(** [value ILIKE 'pattern']: a NULL operand makes the predicate NULL, which a
    WHERE clause reads as not selected. *)
Definition ilike (v : option string) (pattern : string) : bool :=
  match v with
  | None => false
  | Some s => like (lower pattern) (lower s)
  end.

Fixpoint contains_char (c : ascii) (s : string) : bool :=
  match s with
  | EmptyString => false
  | String d s' => Ascii.eqb c d || contains_char c s'
  end.

(** The tools splice their text argument between two apostrophes.  The
    statement sent to the engine is the one written in the source exactly when
    the argument holds no apostrophe. *)
Definition apostrophe : ascii := "'"%char.
Definition sql_literal_safe (s : string) : bool := negb (contains_char apostrophe s).


(** Python's [str(int)] *)
Definition str_int (z : Z) : string := NilZero.string_of_int (Z.to_int z).

(* ===================================================================== *)
(** * Numbers *)
(* ===================================================================== *)

Inductive double : Type :=
  | NaN
  | PInf
  | NInf
  | Fin (q : Qc).

Definition is_nan (d : double) : bool :=
  match d with NaN => true | _ => false end.

Definition of_Z (z : Z) : double := Fin (Q2Qc (inject_Z z)).

(** IEEE addition on the model: exact on finite values. *)
Definition fadd (a b : double) : double :=
  match a, b with
  | NaN, _ | _, NaN => NaN
  | PInf, NInf | NInf, PInf => NaN
  | PInf, _ | _, PInf => PInf
  | NInf, _ | _, NInf => NInf
  | Fin x, Fin y => Fin (x + y)%Qc
  end.

(** Division of an aggregate by a row count. *)
Definition fdiv_count (a : double) (n : positive) : double :=
  match a with
  | Fin x => Fin (x / Q2Qc (inject_Z (Z.pos n)))%Qc
  | other => other
  end.

(** Rounding toward zero, numpy's float to int conversion. *)
Definition truncate (q : Qc) : Z := Z.quot (Qnum q) (Z.pos (Qden q)).

(** Rounding to nearest, ties to even ([nearbyint]): the engine's DOUBLE to
    INTEGER conversion. *)
Definition round_half_even (q : Qc) : Z :=
  let n := Qnum q in
  let d := Z.pos (Qden q) in
  let f := n / d in
  let r := n mod d in
  if 2 * r <? d then f
  else if d <? 2 * r then f + 1
  else if Z.even f then f else f + 1.

(* ===================================================================== *)
(** * Python values, exceptions and pandas frames *)
(* ===================================================================== *)

(** A cell of a frame, or a value of a raw JSON record. *)
Inductive value : Type :=
  | VNone
  | VStr (s : string)
  | VInt (z : Z)
  | VFloat (d : double).

(** [pd.isna] *)
Definition isna (v : value) : bool :=
  match v with
  | VNone | VFloat NaN => true
  | _ => false
  end.

Definition is_str (v : value) : bool :=
  match v with VStr _ => true | _ => false end.

Inductive exception : Type :=
  | KeyError (label : string)
  | TypeError
  | ValueError
  | AttributeError
  | IntCastingNaNError.

Inductive result (A : Type) : Type :=
  | Ok (a : A)
  | Raise (e : exception).
Arguments Ok {A} a.
Arguments Raise {A} e.

#[global] Instance result_ret : MRet result := λ A a, Ok a.
#[global] Instance result_bind : MBind result :=
  λ A B f m, match m with Ok a => f a | Raise e => Raise e end.

(** A frame: its column labels and its rows, each under its index label.  A
    label that a row does not bind reads as NaN, the filler pandas uses. *)
Record DataFrame : Type := {
  columns : list string;
  rows : list (nat * gmap string value)
}.

Definition cell (row : gmap string value) (label : string) : value :=
  default (VFloat NaN) (row !! label).

Definition has_column (df : DataFrame) (label : string) : bool :=
  bool_decide (label ∈ columns df).

Fixpoint require_columns (df : DataFrame) (labels : list string) : result unit :=
  match labels with
  | [] => Ok ()
  | l :: labels' => if has_column df l then require_columns df labels' else Raise (KeyError l)
  end.

Definition map_rows (f : gmap string value → gmap string value) (df : DataFrame)
  : list (nat * gmap string value) :=
  (λ ir, (ir.1, f ir.2)) <$> rows df.

(** [pd.DataFrame(records)]: the columns are the keys met, the index is the
    position of the record. *)
Definition pd_DataFrame (records : list (gmap string value)) : DataFrame :=
  {| columns := remove_dups (records ≫= (λ r, (map_to_list r).*1));
     rows := imap (λ i r, (i, r)) records |}.

(** The row whose label [f l] holds what [row] holds at [l], for [l] among
    [labels]. *)
Definition relabel (f : string → string) (labels : list string)
    (row : gmap string value) : gmap string value :=
  foldr (λ l m, match row !! l with Some v => <[f l := v]> m | None => m end) ∅ labels.

Fixpoint rename_label (mapping : list (string * string)) (l : string) : string :=
  match mapping with
  | [] => l
  | (old, new) :: mapping' => if String.eqb old l then new else rename_label mapping' l
  end.

(** [df.rename(columns=mapping)].  Two labels renamed to one leave a frame
    with a duplicated label, which the rows of the model cannot hold: the
    model raises at once, as the column accesses of the transforms do on such
    a frame (a duplicated area_hectare apart, which they never access). *)
Definition rename (mapping : list (string * string)) (df : DataFrame) : result DataFrame :=
  let labels := rename_label mapping <$> columns df in
  if bool_decide (NoDup labels)
  then Ok {| columns := labels;
             rows := map_rows (relabel (rename_label mapping) (columns df)) df |}
  else Raise TypeError.

(** [df[[labels]]] *)
Definition select (labels : list string) (df : DataFrame) : result DataFrame :=
  _ ← require_columns df labels;
  Ok {| columns := labels; rows := map_rows (relabel id labels) df |}.

(** [df[label] = v] for a scalar [v] *)
Definition assign (label : string) (v : value) (df : DataFrame) : DataFrame :=
  {| columns := if has_column df label then columns df else columns df ++ [label];
     rows := map_rows (insert label v) df |}.

(** [df[label] = f(df[label])] for an element-wise [f] *)
Definition map_column (label : string) (f : value → value) (df : DataFrame)
  : result DataFrame :=
  _ ← require_columns df [label];
  Ok {| columns := columns df;
        rows := map_rows (λ row, <[label := f (cell row label)]> row) df |}.

Definition complete (subset : list string) (row : gmap string value) : bool :=
  forallb (λ l, negb (isna (cell row l))) subset.

(** [df.dropna(subset=labels)] *)
Definition dropna (subset : list string) (df : DataFrame) : result DataFrame :=
  _ ← require_columns df subset;
  Ok {| columns := columns df;
        rows := filter (λ ir, complete subset ir.2) (rows df) |}.

(** One cell of [astype(int)]; non-finite values are refused. *)
Definition int_of_cell (v : value) : result value :=
  match v with
  | VInt z => Ok (VInt z)
  | VFloat (Fin q) => Ok (VInt (truncate q))
  | VFloat _ => Raise IntCastingNaNError
  | VNone => Raise TypeError
  | VStr _ => Raise ValueError
  end.

Fixpoint astype_int_rows (label : string) (l : list (nat * gmap string value))
  : result (list (nat * gmap string value)) :=
  match l with
  | [] => Ok []
  | (i, row) :: l' =>
      v ← int_of_cell (cell row label);
      rest ← astype_int_rows label l';
      Ok ((i, <[label := v]> row) :: rest)
  end.

(** [df[label] = df[label].astype(int)] *)
Definition astype_int (label : string) (df : DataFrame) : result DataFrame :=
  _ ← require_columns df [label];
  rs ← astype_int_rows label (rows df);
  Ok {| columns := columns df; rows := rs |}.

(** The [.str] accessor is refused on a column that holds values none of
    which is a string. *)
Definition str_accessor_ok (cells : list value) : bool :=
  existsb is_str cells || forallb isna cells.

(** One cell of [.str.strip().str.title()]; a cell that is no string comes out
    as NaN. *)
Definition strip_title (v : value) : value :=
  match v with
  | VStr s => VStr (title (strip s))
  | _ => VFloat NaN
  end.

(** [df[label] = df[label].str.strip().str.title()] *)
Definition str_strip_title (label : string) (df : DataFrame) : result DataFrame :=
  _ ← require_columns df [label];
  if str_accessor_ok ((λ ir, cell ir.2 label) <$> rows df)
  then Ok {| columns := columns df;
             rows := map_rows (λ row, <[label := strip_title (cell row label)]> row) df |}
  else Raise AttributeError.

(** [df.melt(id_vars, value_vars, var_name, value_name)]: one block of rows
    per value column, in the order of [value_vars]; the index is renumbered.
    A frame that already has a column named [value_name] is refused. *)
Definition melt (id_vars value_vars : list string) (var_name value_name : string)
    (df : DataFrame) : result DataFrame :=
  _ ← require_columns df (id_vars ++ value_vars);
  if has_column df value_name then Raise ValueError
  else
    Ok {| columns := id_vars ++ [var_name; value_name];
          rows := imap (λ i row, (i, row))
                    (value_vars ≫= (λ v,
                       (λ ir, <[value_name := cell ir.2 v]>
                                (<[var_name := VStr v]> (relabel id id_vars ir.2)))
                       <$> rows df)) |}.

(* ===================================================================== *)
(** * The transforms of et1.py *)
(* ===================================================================== *)

Section Transform.

(** The text grammar of [pd.to_numeric] belongs to pandas: the transforms are
    parametric in it.  NaN is the answer for text that is no number. *)
Variable parse_float : string → double.

(** One cell of [pd.to_numeric(..., errors='coerce')] *)
Definition to_numeric (v : value) : value :=
  match v with
  | VNone => VFloat NaN
  | VStr s => VFloat (parse_float s)
  | VInt z => VFloat (of_Z z)
  | VFloat d => VFloat d
  end.

Definition agri_names : list (string * string) :=
  [("state_name", "state"); ("district_name", "district"); ("crop_year", "year");
   ("season", "season"); ("crop", "crop"); ("area_", "area_hectare");
   ("production_", "production_tonnes")]%string.

Definition transform_agri_data (records : list (gmap string value)) (source_url : string)
  : result DataFrame :=
  let df := pd_DataFrame records in
  df ← rename agri_names df;
  df ← select ["state"; "district"; "crop"; "year"; "season"; "area_hectare";
               "production_tonnes"]%string df;
  let df := assign "source_url" (VStr source_url) df in
  df ← map_column "year" to_numeric df;
  df ← map_column "production_tonnes" to_numeric df;
  df ← dropna ["year"; "production_tonnes"; "state"; "district"; "crop"]%string df;
  df ← astype_int "year" df;
  df ← str_strip_title "state" df;
  df ← str_strip_title "district" df;
  df ← str_strip_title "crop" df;
  Ok df.

Definition climate_names : list (string * string) :=
  [("subdivision", "subdivision"); ("year", "year")]%string.

Definition month_columns_raw : list string :=
  ["jan"; "feb"; "mar"; "apr"; "may"; "jun"; "jul"; "aug"; "sep"; "oct"; "nov"; "dec"]%string.

(** [if col in df.columns: df[col] = pd.to_numeric(df[col], errors='coerce')] *)
Definition coerce_column (df : DataFrame) (col : string) : DataFrame :=
  if has_column df col
  then {| columns := columns df;
          rows := map_rows (λ row, <[col := to_numeric (cell row col)]> row) df |}
  else df.

(** The loop [for col in month_columns_raw: ...] *)
Definition coerce_months (df : DataFrame) : DataFrame :=
  foldl coerce_column df month_columns_raw.

Definition transform_climate_data (records : list (gmap string value)) (source_url : string)
  : result DataFrame :=
  let df := pd_DataFrame records in
  df ← rename climate_names df;
  let df := coerce_months df in
  df_tidy ← melt ["subdivision"; "year"]%string month_columns_raw "month" "rainfall_mm" df;
  let df_tidy := assign "source_url" (VStr source_url) df_tidy in
  df_tidy ← map_column "year" to_numeric df_tidy;
  df_tidy ← dropna ["year"; "rainfall_mm"; "subdivision"]%string df_tidy;
  df_tidy ← astype_int "year" df_tidy;
  df_tidy ← str_strip_title "subdivision" df_tidy;
  Ok df_tidy.

End Transform.

(** ** Plain decimal text

    An instance of the text grammar, used to run the transforms on concrete
    records: optional sign, digits, optional fraction; surrounding white space
    is ignored and any other text is no number.  On such text it agrees with
    pandas, save for the rounding of the fraction to binary. *)

Definition digit_of (c : ascii) : option Z :=
  if ((48 <=? code c) && (code c <=? 57))%nat then Some (Z.of_nat (code c - 48)) else None.

(** The value and the count of the leading digits, and the text after them. *)
Fixpoint read_digits (acc : Z) (count : nat) (s : string) : Z * nat * string :=
  match s with
  | EmptyString => (acc, count, EmptyString)
  | String c s' =>
      match digit_of c with
      | Some d => read_digits (10 * acc + d) (S count) s'
      | None => (acc, count, s)
      end
  end.

Definition parse_unsigned (s : string) : option Qc :=
  let '(whole, n, rest) := read_digits 0 0 s in
  match rest with
  | EmptyString => if (0 <? n)%nat then Some (Q2Qc (inject_Z whole)) else None
  | String c frac =>
      if Ascii.eqb c "."%char then
        let '(part, m, rest') := read_digits 0 0 frac in
        match rest' with
        | EmptyString =>
            if (0 <? n + m)%nat
            then Some (Q2Qc (inject_Z whole + Qmake part (Pos.of_nat (Nat.pow 10 m))))
            else None
        | _ => None
        end
      else None
  end.

Definition parse_decimal (s : string) : double :=
  match strip s with
  | String c s' =>
      if Ascii.eqb c "-"%char
      then match parse_unsigned s' with Some q => Fin (- q)%Qc | None => NaN end
      else if Ascii.eqb c "+"%char
      then match parse_unsigned s' with Some q => Fin q | None => NaN end
      else match parse_unsigned (String c s') with Some q => Fin q | None => NaN end
  | EmptyString => NaN
  end.

(* ===================================================================== *)
(** * The database file and the load step *)
(* ===================================================================== *)

(** A stored table: its column names and its rows.  The index of a frame is
    no column, so it is not stored. *)
Record Table : Type := {
  table_columns : list string;
  table_rows : list (gmap string value)
}.

(** [CREATE OR REPLACE TABLE t AS SELECT * FROM temp_df], the right-hand side *)
Definition select_all (temp_df : DataFrame) : Table :=
  {| table_columns := columns temp_df; table_rows := (rows temp_df).*2 |}.

(** [load_to_duckdb(dataframes, db_file)]; [con] is the content of the file
    the connection is opened on.  Table names are plain identifiers, as the
    two names the pipeline passes. *)
Definition load_to_duckdb (dataframes : gmap string DataFrame) (con : gmap string Table)
  : gmap string Table :=
  map_fold (λ table_name df con, <[table_name := select_all df]> con) con dataframes.

(* ===================================================================== *)
(** * The engine: typed columns, aggregates, ordering *)
(* ===================================================================== *)

Inductive engine_error : Type :=
  | CatalogException
  | BinderException
  | ConversionException.

Inductive outcome (A : Type) : Type :=
  | Done (a : A)
  | Failed (e : engine_error).
Arguments Done {A} a.
Arguments Failed {A} e.

#[global] Instance outcome_ret : MRet outcome := λ A a, Done a.
#[global] Instance outcome_bind : MBind outcome :=
  λ A B f m, match m with Done a => f a | Failed e => Failed e end.

Fixpoint traverse {A B : Type} (f : A → outcome B) (l : list A) : outcome (list B) :=
  match l with
  | [] => Done []
  | x :: l' => y ← f x; ys ← traverse f l'; Done (y :: ys)
  end.

(** How a stored cell reads under a column type; [None] is a cell the type
    does not hold.  NaN and None were stored as NULL. *)
Definition as_varchar (v : value) : option (option string) :=
  match v with
  | VStr s => Some (Some s)
  | VNone | VFloat NaN => Some None
  | _ => None
  end.

Definition as_bigint (v : value) : option Z :=
  match v with
  | VInt z => Some z
  | _ => None
  end.

Definition as_double (v : value) : option (option double) :=
  match v with
  | VFloat NaN | VNone => Some None
  | VFloat d => Some (Some d)
  | VInt z => Some (Some (of_Z z))
  | VStr _ => None
  end.

(** [SUM]: NULL cells are skipped; no cell left gives NULL. *)
Definition sql_sum (cells : list (option double)) : option double :=
  match omap id cells with
  | [] => None
  | d :: ds => Some (foldl fadd d ds)
  end.

(** [AVG]: the sum of the cells that are not NULL over their count. *)
Definition sql_avg (cells : list (option double)) : option double :=
  match omap id cells with
  | [] => None
  | d :: ds => Some (fdiv_count (foldl fadd d ds) (Pos.of_nat (length (d :: ds))))
  end.

(** [ANY_VALUE]: the first cell that is not NULL. *)
Fixpoint any_value {A : Type} (cells : list (option A)) : option A :=
  match cells with
  | [] => None
  | Some a :: _ => Some a
  | None :: cells' => any_value cells'
  end.

(** [CAST(x AS INTEGER)] of a DOUBLE: refused outside [-2^31, 2^31) and on
    values that are not finite, rounded otherwise. *)
Definition cast_integer (x : option double) : outcome (option Z) :=
  match x with
  | None => Done None
  | Some (Fin q) =>
      if (- 2 ^ 31 * Z.pos (Qden q) <=? Qnum q) && (Qnum q <? 2 ^ 31 * Z.pos (Qden q))
      then Done (Some (round_half_even q))
      else Failed ConversionException
  | Some _ => Failed ConversionException
  end.

(** [ORDER BY x DESC] with NULLs last: [a] may stand before [b]. *)
Definition desc (a b : option Z) : Prop :=
  match a, b with
  | Some x, Some y => y ≤ x
  | _, None => True
  | None, Some _ => False
  end.

#[global] Instance desc_dec a b : Decision (desc a b).
Proof. destruct a, b; simpl; apply _. Defined.

(** [LIMIT n]: a constant outside the BIGINT range, or below zero, is refused
    when the statement is bound. *)
Definition check_limit (n : Z) : outcome unit :=
  if (0 <=? n) && (n <? 2 ^ 63) then Done () else Failed BinderException.

(** The range of the INTEGER type. *)
Definition fits_integer (z : Z) : Prop := - 2 ^ 31 ≤ z < 2 ^ 31.

#[global] Instance fits_integer_dec z : Decision (fits_integer z).
Proof. unfold fits_integer. apply _. Defined.

Definition has_columns (t : Table) (names : list string) : bool :=
  forallb (λ c, bool_decide (c ∈ table_columns t)) names.

(* ===================================================================== *)
(** * agriculture_production and get_top_crops_by_production *)
(* ===================================================================== *)

Module AgricultureProduction.

(** The columns the tools read, under the types of the cleaned frame. *)
Record row : Type := {
  state : option string;
  crop : option string;
  year : Z;
  production_tonnes : option double;
  source_url : option string
}.

Definition read (r : gmap string value) : option row :=
  st ← as_varchar (cell r "state");
  cr ← as_varchar (cell r "crop");
  yr ← as_bigint (cell r "year");
  pr ← as_double (cell r "production_tonnes");
  url ← as_varchar (cell r "source_url");
  Some {| state := st; crop := cr; year := yr; production_tonnes := pr; source_url := url |}.

(** [FROM agriculture_production]: the table must exist and carry the columns
    named in the statement under types that fit its operators. *)
Definition scan (con : gmap string Table) : outcome (list row) :=
  match con !! "agriculture_production"%string with
  | None => Failed CatalogException
  | Some t =>
      if has_columns t ["state"; "crop"; "year"; "production_tonnes"; "source_url"]%string
      then match mapM read (table_rows t) with
           | Some rs => Done rs
           | None => Failed BinderException
           end
      else Failed BinderException
  end.

End AgricultureProduction.

Module TopCrops.

Import AgricultureProduction.

(** One row of the result set. *)
Record record : Type := {
  crop : option string;
  total_production : option Z;
  source_url : option string
}.

(** [WHERE state ILIKE '{state}' AND CAST(year AS INTEGER) = {year}].  The
    stored years are calendar years: they fit INTEGER ([fits_integer]), where
    the narrowing cast is the identity. *)
Definition selected (state : string) (year : Z) (r : row) : bool :=
  ilike (AgricultureProduction.state r) state && (AgricultureProduction.year r =? year).

(** The rows of one [GROUP BY crop] group. *)
Definition group (matching : list row) (c : option string) : list row :=
  filter (λ r, AgricultureProduction.crop r = c) matching.

(** The select list, on one group. *)
Definition project (matching : list row) (c : option string) : outcome record :=
  total ← cast_integer (sql_sum (production_tonnes <$> group matching c));
  Done {| crop := c;
          total_production := total;
          source_url := any_value (AgricultureProduction.source_url <$> group matching c) |}.

Definition by_total_desc (a b : record) : Prop :=
  desc (total_production a) (total_production b).

#[global] Instance by_total_desc_dec a b : Decision (by_total_desc a b).
Proof. unfold by_total_desc. apply _. Defined.

(** The statement.  The engine leaves open the order of groups with equal
    totals and the row that ANY_VALUE reads first; the model fixes one. *)
Definition query (con : gmap string Table) (state : string) (year top_m : Z)
  : outcome (list record) :=
  table ← scan con;
  _ ← check_limit top_m;
  let matching := filter (λ r, selected state year r = true) table in
  groups ← traverse (project matching) (remove_dups (AgricultureProduction.crop <$> matching));
  Done (take (Z.to_nat top_m) (merge_sort by_total_desc groups)).

End TopCrops.

(** What a tool hands back: the JSON text of a result set
    ([to_json(orient="records")]), a sentence, or the tool's error sentence
    around the engine's message. *)
Inductive tool_output (A : Type) : Type :=
  | Json (records : list A)
  | Text (sentence : string)
  | ErrorText (e : engine_error).
Arguments Json {A} records.
Arguments Text {A} sentence.
Arguments ErrorText {A} e.

Definition no_production_data (state : string) (year : Z) : string :=
  ("No production data found for " +:+ state +:+ " in " +:+ str_int year +:+ ".")%string.

Definition get_top_crops_by_production (con : gmap string Table)
    (state : string) (year top_m : Z) : tool_output TopCrops.record :=
  match TopCrops.query con state year top_m with
  | Done [] => Text (no_production_data state year)
  | Done result => Json result
  | Failed e => ErrorText e
  end.

(* ===================================================================== *)
(** * climate_rainfall and get_average_annual_rainfall *)
(* ===================================================================== *)

Module ClimateRainfall.

Record row : Type := {
  subdivision : option string;
  year : Z;
  rainfall_mm : option double;
  source_url : option string
}.

Definition read (r : gmap string value) : option row :=
  sub ← as_varchar (cell r "subdivision");
  yr ← as_bigint (cell r "year");
  rain ← as_double (cell r "rainfall_mm");
  url ← as_varchar (cell r "source_url");
  Some {| subdivision := sub; year := yr; rainfall_mm := rain; source_url := url |}.

Definition scan (con : gmap string Table) : outcome (list row) :=
  match con !! "climate_rainfall"%string with
  | None => Failed CatalogException
  | Some t =>
      if has_columns t ["subdivision"; "year"; "rainfall_mm"; "source_url"]%string
      then match mapM read (table_rows t) with
           | Some rs => Done rs
           | None => Failed BinderException
           end
      else Failed BinderException
  end.

End ClimateRainfall.

Module AverageRainfall.

Import ClimateRainfall.

Record record : Type := {
  average_annual_rainfall : option double;
  source_url : option string
}.

(** [WHERE subdivision ILIKE '{subdivision}' AND year BETWEEN {start_year}
    AND {end_year}] *)
Definition selected (subdivision : string) (start_year end_year : Z) (r : row) : bool :=
  ilike (ClimateRainfall.subdivision r) subdivision
  && (start_year <=? year r) && (year r <=? end_year).

Definition group (matching : list row) (y : Z) : list row :=
  filter (λ r, year r = y) matching.

(** One row of [YearlyTotals] *)
Record yearly_total : Type := {
  total_year : Z;
  total_annual_rainfall : option double;
  total_source_url : option string
}.

Definition YearlyTotals (matching : list row) : list yearly_total :=
  (λ y, {| total_year := y;
           total_annual_rainfall := sql_sum (rainfall_mm <$> group matching y);
           total_source_url := any_value (ClimateRainfall.source_url <$> group matching y) |})
  <$> remove_dups (year <$> matching).

(** The statement: an aggregate without GROUP BY, hence always one row. *)
Definition query (con : gmap string Table) (subdivision : string) (start_year end_year : Z)
  : outcome (list record) :=
  table ← scan con;
  let matching := filter (λ r, selected subdivision start_year end_year r = true) table in
  let totals := YearlyTotals matching in
  Done [ {| average_annual_rainfall := sql_avg (total_annual_rainfall <$> totals);
            source_url := any_value (total_source_url <$> totals) |} ].

End AverageRainfall.

Definition get_average_annual_rainfall (con : gmap string Table)
    (subdivision : string) (start_year end_year : Z) : tool_output AverageRainfall.record :=
  match AverageRainfall.query con subdivision start_year end_year with
  | Done result => Json result
  | Failed e => ErrorText e
  end.

Definition records_of {A : Type} (out : tool_output A) : list A :=
  match out with
  | Json records => records
  | _ => []
  end.

(* ===================================================================== *)
(** * The specification's readings that the code is compared with *)
(* ===================================================================== *)

Fixpoint is_prefix (p s : string) : bool :=
  match p, s with
  | EmptyString, _ => true
  | String a p', String b s' => Ascii.eqb a b && is_prefix p' s'
  | String _ _, EmptyString => false
  end.

Fixpoint is_substring (p s : string) : bool :=
  is_prefix p s ||
  match s with
  | EmptyString => false
  | String _ s' => is_substring p s'
  end.




(** The tidy row the climate transform builds for one month. *)
Definition tidy_row (subdivision : string) (year : Z) (month : string) (rainfall : value)
    (source_url : string) : gmap string value :=
  <["subdivision"%string := VStr subdivision]>
    (<["year"%string := VInt year]>
       (<["month"%string := VStr month]>
          (<["rainfall_mm"%string := rainfall]>
             {["source_url"%string := VStr source_url]}))).

(* ===================================================================== *)
(** * Sample data *)
(* ===================================================================== *)

Definition agri_record (state district year crop production : string)
  : gmap string value :=
  list_to_map
    [("state_name", VStr state); ("district_name", VStr district); ("crop_year", VStr year);
     ("season", VStr "Kharif     "); ("crop", VStr crop); ("area_", VStr "1254");
     ("production_", VStr production)]%string.

Definition sample_agri_records : list (gmap string value) :=
  [agri_record "Punjab" "AMRITSAR" "2010" "Rice" "1.7";
   agri_record "Punjab" "LUDHIANA" "2010" "Wheat" "10.5";
   agri_record "Punjab" "LUDHIANA" "2010" "Rice" "1.0";
   agri_record "Punjab" "PATIALA" "2010" "Maize" "11.5";
   agri_record "West Punjab" "LAHORE" "2010" "Jute" "99";
   agri_record "Punjab" "PATIALA" "2010" "Bajra" "NA";
   agri_record "Kerala" "KOLLAM" "2010" "Coconut" "5000000000"]%string.

Definition agri_url : string :=
  "https://data.gov.in/resource/district-wise-season-wise-crop-production-statistics-1997".
Definition climate_url : string :=
  "https://www.data.gov.in/resource/sub-divisional-monthly-rainfall-1901-2017".

Definition climate_record (subdivision year : string) (months : list string)
  : gmap string value :=
  list_to_map
    ([("subdivision", VStr subdivision); ("year", VStr year)]%string
     ++ zip month_columns_raw (VStr <$> months) ++ [("annual"%string, VStr "78")]).

Definition full_year_record : gmap string value :=
  climate_record "PUNJAB" "2010"
    ["1"; "2"; "3"; "4"; "5"; "6"; "7.5"; "8"; "9"; "10"; "11"; "12"]%string.

Definition gappy_year_record : gmap string value :=
  climate_record "punjab" "2010"
    ["NA"; "2"; "3"; "4"; "5"; "6"; "7.5"; "8"; "9"; "10"; "11"; "12"]%string.

Definition frame_or_empty (r : result DataFrame) : DataFrame :=
  match r with
  | Ok df => df
  | Raise _ => {| columns := []; rows := [] |}
  end.

Definition sample_dataframes : gmap string DataFrame :=
  {[ "agriculture_production"%string :=
       frame_or_empty (transform_agri_data parse_decimal sample_agri_records agri_url);
     "climate_rainfall"%string :=
       frame_or_empty (transform_climate_data parse_decimal [full_year_record] climate_url) ]}.

(** The database file after one run of the pipeline on the sample data. *)
Definition sample_con : gmap string Table := load_to_duckdb sample_dataframes ∅.

(** The rows the tools read in the sample database. *)
Definition sample_agriculture : list AgricultureProduction.row :=
  match AgricultureProduction.scan sample_con with
  | Done table => table
  | Failed _ => []
  end.

Definition sample_rainfall : list ClimateRainfall.row :=
  match ClimateRainfall.scan sample_con with
  | Done table => table
  | Failed _ => []
  end.


Definition top_crop (crop : string) (total : Z) : TopCrops.record :=
  {| TopCrops.crop := Some crop;
     TopCrops.total_production := Some total;
     TopCrops.source_url := Some agri_url |}.

(** A raw record is keyed by the API's field names, not by the names the
    transform renames them to. *)
Definition raw_labels (rec : gmap string value) : Prop :=
  rec !! "year"%string = None ∧ rec !! "production_tonnes"%string = None.

(** A record as the agriculture frame holds it after the renaming and the
    projection. *)
Definition agri_projected (records : list (gmap string value)) (rec : gmap string value)
  : gmap string value :=
  relabel id ["state"; "district"; "crop"; "year"; "season"; "area_hectare";
              "production_tonnes"]%string
    (relabel (rename_label agri_names) (columns (pd_DataFrame records)) rec).

Definition sample_agri_frame : DataFrame :=
  frame_or_empty (transform_agri_data parse_decimal sample_agri_records agri_url).

Definition gappy_year_frame : DataFrame :=
  frame_or_empty (transform_climate_data parse_decimal [gappy_year_record] climate_url).

(** The one Kerala row of the sample: coconuts are counted in nuts. *)
Definition kerala_coconuts : Qc := Q2Qc (inject_Z 5000000000).

Definition kerala_row : AgricultureProduction.row :=
  {| AgricultureProduction.state := Some "Kerala"%string;
     AgricultureProduction.crop := Some "Coconut"%string;
     AgricultureProduction.year := 2010;
     AgricultureProduction.production_tonnes := Some (Fin kerala_coconuts);
     AgricultureProduction.source_url := Some agri_url |}.

(* ===================================================================== *)
(** * correlate_crop_and_climate *)
(* ===================================================================== *)

Module CropTrend.

Import AgricultureProduction.

(** One row of the crop series. *)
Record record : Type := {
  year : Z;
  total_production : option double;
  source_url : option string
}.

(** [WHERE state ILIKE '{state}' AND crop ILIKE '{crop_name}'
    AND year BETWEEN {start_year} AND {end_year}] *)
Definition selected (crop_name state : string) (start_year end_year : Z) (r : row) : bool :=
  ilike (AgricultureProduction.state r) state
  && ilike (crop r) crop_name
  && (start_year <=? AgricultureProduction.year r)
  && (AgricultureProduction.year r <=? end_year).

(** The rows of one [GROUP BY year] group. *)
Definition group (matching : list row) (y : Z) : list row :=
  filter (λ r, AgricultureProduction.year r = y) matching.

(** The select list, on one group: the sum stays a DOUBLE. *)
Definition project (matching : list row) (y : Z) : record :=
  {| year := y;
     total_production := sql_sum (production_tonnes <$> group matching y);
     source_url := any_value (AgricultureProduction.source_url <$> group matching y) |}.

(** [ORDER BY year] *)
Definition by_year (a b : record) : Prop := year a ≤ year b.

#[global] Instance crop_by_year_dec a b : Decision (by_year a b).
Proof. unfold by_year. apply _. Defined.

Definition query (con : gmap string Table) (crop_name state : string)
    (start_year end_year : Z) : outcome (list record) :=
  table ← scan con;
  let matching := filter (λ r, selected crop_name state start_year end_year r = true) table in
  Done (merge_sort by_year
          (project matching <$> remove_dups (AgricultureProduction.year <$> matching))).

End CropTrend.

Module RainfallTrend.

Import ClimateRainfall AverageRainfall.

(** [ORDER BY year] *)
Definition by_year (a b : yearly_total) : Prop := total_year a ≤ total_year b.

#[global] Instance rainfall_by_year_dec a b : Decision (by_year a b).
Proof. unfold by_year. apply _. Defined.

(** The statement is the one inside [YearlyTotals], ordered by year. *)
Definition query (con : gmap string Table) (subdivision : string)
    (start_year end_year : Z) : outcome (list yearly_total) :=
  table ← scan con;
  let matching := filter (λ r, selected subdivision start_year end_year r = true) table in
  Done (merge_sort by_year (YearlyTotals matching)).

End RainfallTrend.

(** The dictionary that the tool serialises with [json.dumps]. *)
Record correlation_data : Type := {
  crop_production_trend : list CropTrend.record;
  rainfall_trend : list AverageRainfall.yearly_total
}.

Inductive correlation_output : Type :=
  | CorrelationJson (data : correlation_data)
  | CorrelationError (e : engine_error).

Definition correlate_crop_and_climate (con : gmap string Table)
    (crop_name state subdivision : string) (start_year end_year : Z) : correlation_output :=
  match CropTrend.query con crop_name state start_year end_year with
  | Failed e => CorrelationError e
  | Done crop_df =>
      match RainfallTrend.query con subdivision start_year end_year with
      | Failed e => CorrelationError e
      | Done climate_df =>
          CorrelationJson {| crop_production_trend := crop_df; rainfall_trend := climate_df |}
      end
  end.

(* ===================================================================== *)
(** * fetch_data *)
(* ===================================================================== *)

(** What [response.json()] returns. *)
#[warnings="-register-all"]
Inductive json : Type :=
  | JScalar (v : value)
  | JBool (b : bool)
  | JArray (items : list json)
  | JObject (members : list (string * json)).

(** What [requests.get] ends in: a [RequestException] (no connection, time
    out), or a response with its status code and its body, [None] for a body
    that is no JSON text. *)
Inductive http_outcome : Type :=
  | RequestFailed
  | Response (status_code : Z) (body : option json).

(** [data[key]] on a dictionary: of two members with one key the later one
    is the one the parser kept. *)
Fixpoint member (key : string) (members : list (string * json)) : option json :=
  match members with
  | [] => None
  | (k, v) :: members' =>
      match member key members' with
      | Some later => Some later
      | None => if String.eqb k key then Some v else None
      end
  end.

Definition is_the_text (s : string) (j : json) : bool :=
  match j with
  | JScalar (VStr t) => String.eqb s t
  | _ => false
  end.

(** [key in data] *)
Definition contains (key : string) (data : json) : result bool :=
  match data with
  | JObject members => Ok (bool_decide (is_Some (member key members)))
  | JArray items => Ok (existsb (is_the_text key) items)
  | JScalar (VStr s) => Ok (is_substring key s)
  | _ => Raise TypeError
  end.

(** [data[key]] for a text key *)
Definition getitem (data : json) (key : string) : result json :=
  match data with
  | JObject members =>
      match member key members with
      | Some v => Ok v
      | None => Raise (KeyError key)
      end
  | _ => Raise TypeError
  end.

(** The values [len] accepts. *)
Definition has_len (j : json) : bool :=
  match j with
  | JArray _ | JObject _ | JScalar (VStr _) => true
  | _ => false
  end.

Definition fetch_url (api_key resource_id : string) (limit : Z) : string :=
  ("https://api.data.gov.in/resource/" +:+ resource_id +:+ "?api-key=" +:+ api_key
   +:+ "&format=json&limit=" +:+ str_int limit)%string.

Section Fetch.

(** The network, as [requests.get(url, timeout=60)] sees it. *)
Variable requests_get : string → http_outcome.
Variable API_KEY : string.

(** [fetch_data(resource_id, limit)]: every [RequestException] is caught and
    turned into [None]; that of [raise_for_status] comes with a status from
    400 to 599, that of [response.json()] with a body that is no JSON (the
    decoding error is a [RequestException] since requests 2.27). *)
Definition fetch_data (resource_id : string) (limit : Z) : result (option json) :=
  match requests_get (fetch_url API_KEY resource_id limit) with
  | RequestFailed => Ok None
  | Response status_code body =>
      if (400 <=? status_code) && (status_code <? 600) then Ok None
      else
        match body with
        | None => Ok None
        | Some data =>
            found ← contains "records" data;
            if negb found then Ok None
            else
              records ← getitem data "records";
              if has_len records then Ok (Some records) else Raise TypeError
        end
  end.

End Fetch.

(* ===================================================================== *)
(** * The pipeline of et1.py *)
(* ===================================================================== *)

Inductive etl_status : Type :=
  | EtlComplete
  | EtlFailed
  | EtlRaised (e : exception).

(** The script under [if __name__ == "__main__"], from the two values
    [fetch_data] returned (lists of flat records) and the content [con] of the
    database file; it returns the message it ends with, or the exception, and
    the content of the file afterwards. *)
Definition etl_main (parse_float : string → double)
    (agri_records climate_records : option (list (gmap string value)))
    (con : gmap string Table) : etl_status * gmap string Table :=
  match agri_records, climate_records with
  | Some (a :: agri), Some (c :: climate) =>
      match transform_agri_data parse_float (a :: agri) agri_url with
      | Raise e => (EtlRaised e, con)
      | Ok df_agri =>
          match transform_climate_data parse_float (c :: climate) climate_url with
          | Raise e => (EtlRaised e, con)
          | Ok df_climate =>
              (EtlComplete,
               load_to_duckdb {[ "agriculture_production"%string := df_agri;
                                 "climate_rainfall"%string := df_climate ]} con)
          end
      end
  | _, _ => (EtlFailed, con)
  end.

(* ===================================================================== *)
(** * The two chat loops *)
(* ===================================================================== *)

(** [user_input.lower() in ['exit', 'quit']] *)
Definition is_exit (user_input : string) : bool :=
  String.eqb (lower user_input) "exit" || String.eqb (lower user_input) "quit".

Inductive loop_end : Type :=
  | Exited
  | EndOfInput
  | AgentRaised.

(** The loop of agent.py over the lines typed; [invoke input chat_history] is
    the output of [agent_executor.invoke], [None] when it raises.  The result
    is what was printed, how the loop ended and the final chat history. *)
Fixpoint chat_loop (invoke : string → list (string * string) → option string)
    (inputs : list string) (chat_history : list (string * string))
  : list string * loop_end * list (string * string) :=
  match inputs with
  | [] => ([], EndOfInput, chat_history)
  | user_input :: inputs' =>
      if is_exit user_input then ([], Exited, chat_history)
      else
        match invoke user_input chat_history with
        | None => ([], AgentRaised, chat_history)
        | Some output =>
            let '(printed, ending, final) :=
              chat_loop invoke inputs'
                (chat_history ++ [("human", user_input); ("ai", output)]%string) in
            (output :: printed, ending, final)
        end
  end.

(** [st.session_state] of app.py: the messages shown, as (role, content), and
    the history handed to the agent. *)
Record session_state : Type := {
  messages : list (string * string);
  chat_history : list (string * string)
}.

Definition new_session : session_state := {| messages := []; chat_history := [] |}.

(** One run of the script of app.py: [prompt] is what [st.chat_input]
    returned, [invoke] the behaviour of the agent during this run. *)
Definition rerun (st : session_state)
    (run : option string * (string → list (string * string) → option string))
  : session_state :=
  match run.1 with
  | None | Some EmptyString => st
  | Some prompt =>
      match run.2 prompt (chat_history st) with
      | None =>
          {| messages := messages st ++ [("user"%string, prompt)];
             chat_history := chat_history st |}
      | Some ai_response =>
          {| messages := messages st ++ [("user"%string, prompt)]
                                     ++ [("assistant"%string, ai_response)];
             chat_history := chat_history st
                             ++ [("human"%string, prompt); ("ai"%string, ai_response)] |}
      end
  end.

(** The messages that were answered, as history entries: a user message is
    kept, with the assistant message after it, when there is one. *)
Fixpoint answered (shown : list (string * string)) : list (string * string) :=
  match shown with
  | [] => []
  | (role, content) :: shown' =>
      match shown' with
      | (role', content') :: _ =>
          if String.eqb role "user" && String.eqb role' "assistant"
          then ("human"%string, content) :: answered shown'
          else if String.eqb role "assistant"
          then ("ai"%string, content) :: answered shown'
          else answered shown'
      | [] =>
          if String.eqb role "assistant" then [("ai"%string, content)] else []
      end
  end.

(* ===================================================================== *)
(** * Text: facts about LIKE and case folding *)
(* ===================================================================== *)








(* ===================================================================== *)
(** * The engine: aggregates, ordering, limits *)
(* ===================================================================== *)

Lemma traverse_Done {A B} (f : A → outcome B) l ys :
  traverse f l = Done ys → Forall2 (λ x y, f x = Done y) l ys.
Proof.
  revert ys. induction l as [|x l IH]; intros ys H; simpl in H.
  - injection H as <-. constructor.
  - destruct (f x) as [y|] eqn:Hx; simpl in H; [|done].
    destruct (traverse f l) as [ys'|] eqn:Hl; simpl in H; [|done].
    injection H as <-. constructor; auto.
Qed.


Lemma desc_total : Total desc.
Proof. intros [x|] [y|]; simpl; auto. destruct (Z.le_ge_cases x y); auto. Qed.

Lemma by_total_desc_total : Total TopCrops.by_total_desc.
Proof. intros a b. apply desc_total. Qed.




Lemma check_limit_Done n : 0 ≤ n < 2 ^ 63 → check_limit n = Done ().
Proof.
  intros [H1 H2]. unfold check_limit.
  apply Z.leb_le in H1. apply Z.ltb_lt in H2. by rewrite H1, H2.
Qed.

Lemma filter_none {A} (P : A → Prop) `{∀ x, Decision (P x)} (l : list A) :
  (∀ x, x ∈ l → ¬ P x) → filter P l = [].
Proof.
  induction l as [|x l IH]; intros Hl; [done|].
  rewrite filter_cons_False by (apply Hl; left).
  apply IH. intros y Hy. apply Hl. by right.
Qed.


(* ===================================================================== *)
(** * Frames: what each operation does to a row *)
(* ===================================================================== *)

(** One step of a chain of binds that ended in [Ok]: the step succeeded. *)
Ltac bind_as H d E :=
  match type of H with
  | (mbind _ ?m) = Ok _ =>
      destruct m as [d|] eqn:E; cbn [mbind result_bind] in H; [|discriminate H]
  end.

Ltac bind_ok H := let d := fresh "d" in let E := fresh "E" in bind_as H d E.

Lemma elem_of_map_rows f df i r :
  (i, r) ∈ map_rows f df ↔ ∃ r0, (i, r0) ∈ rows df ∧ r = f r0.
Proof.
  unfold map_rows. rewrite list_elem_of_fmap. split.
  - intros ([i0 r0] & Heq & Hin). simpl in Heq. injection Heq as -> ->. eauto.
  - intros (r0 & Hin & ->). by exists (i, r0).
Qed.

Lemma require_columns_Ok df labels :
  require_columns df labels = Ok () ↔ ∀ l, l ∈ labels → l ∈ columns df.
Proof.
  induction labels as [|l labels IH]; cbn [require_columns].
  - split; [intros _ l Hl; by apply elem_of_nil in Hl | done].
  - unfold has_column. case_bool_decide as Hl.
    + rewrite IH. split.
      * intros H l' [->|Hl']%elem_of_cons; auto.
      * intros H l' Hl'. apply H. by right.
    + split; [done|]. intros H. exfalso. apply Hl, H. left.
Qed.

Lemma rename_Ok mapping df df' :
  rename mapping df = Ok df' →
  rows df' = map_rows (relabel (rename_label mapping) (columns df)) df.
Proof. unfold rename. case_bool_decide; [|done]. by intros [= <-]. Qed.

Lemma select_Ok labels df df' :
  select labels df = Ok df' → rows df' = map_rows (relabel id labels) df.
Proof. unfold select. intros H. bind_ok H. by injection H as <-. Qed.

Lemma map_column_Ok label f df df' :
  map_column label f df = Ok df' →
  rows df' = map_rows (λ row, <[label := f (cell row label)]> row) df.
Proof. unfold map_column. intros H. bind_ok H. by injection H as <-. Qed.

Lemma dropna_Ok subset df df' :
  dropna subset df = Ok df' →
  rows df' = filter (λ ir, complete subset ir.2) (rows df).
Proof. unfold dropna. intros H. bind_ok H. by injection H as <-. Qed.

Lemma astype_int_Ok label df df' :
  astype_int label df = Ok df' → astype_int_rows label (rows df) = Ok (rows df').
Proof.
  unfold astype_int. intros H. bind_ok H. bind_ok H. by injection H as <-.
Qed.

Lemma str_strip_title_Ok label df df' :
  str_strip_title label df = Ok df' →
  rows df' = map_rows (λ row, <[label := strip_title (cell row label)]> row) df.
Proof.
  unfold str_strip_title. intros H. bind_ok H. case_match; [|done]. by injection H as <-.
Qed.

Lemma astype_int_rows_elem label l rs i r :
  astype_int_rows label l = Ok rs →
  (i, r) ∈ rs →
  ∃ r0 v, (i, r0) ∈ l ∧ int_of_cell (cell r0 label) = Ok v ∧ r = <[label := v]> r0.
Proof.
  revert rs. induction l as [|[j r1] l IH]; intros rs H Hin; cbn [astype_int_rows] in H.
  - injection H as <-. by apply elem_of_nil in Hin.
  - bind_as H v1 Ev. bind_as H rest Erest. injection H as <-.
    apply elem_of_cons in Hin as [[= -> ->]|Hin].
    + exists r1, v1. split; [left|done].
    + destruct (IH _ eq_refl Hin) as (r0 & v & ? & ? & ?).
      exists r0, v. split; [by right|done].
Qed.

Lemma relabel_lookup_Some f labels row k v :
  relabel f labels row !! k = Some v →
  ∃ l, l ∈ labels ∧ f l = k ∧ row !! l = Some v.
Proof.
  unfold relabel. induction labels as [|l labels IH]; cbn [foldr]; intros H.
  - by rewrite lookup_empty in H.
  - destruct (row !! l) as [w|] eqn:Hl.
    + apply lookup_insert_Some in H as [[<- <-]|[_ H]].
      * exists l. split; [left|done].
      * destruct (IH H) as (l' & ? & ? & ?). exists l'. split; [by right|done].
    + destruct (IH H) as (l' & ? & ? & ?). exists l'. split; [by right|done].
Qed.

Lemma elem_of_pd_DataFrame records i rec :
  (i, rec) ∈ rows (pd_DataFrame records) ↔ records !! i = Some rec.
Proof.
  cbn [pd_DataFrame rows]. rewrite elem_of_lookup_imap. split.
  - by intros (j & y & [= -> ->] & H).
  - intros H. by exists i, rec.
Qed.

(** What pd.to_numeric makes of a cell is a float, and NaN for a missing one. *)
Lemma to_numeric_float parse_float v : ∃ d, to_numeric parse_float v = VFloat d.
Proof. destruct v; simpl; eauto. Qed.

Lemma to_numeric_missing parse_float v :
  isna v = true → to_numeric parse_float v = VFloat NaN.
Proof. destruct v as [| | |[]]; simpl; done. Qed.

Lemma isna_VFloat d : isna (VFloat d) = false ↔ d ≠ NaN.
Proof. destruct d; simpl; split; congruence. Qed.

Lemma int_of_cell_float d v :
  int_of_cell (VFloat d) = Ok v → ∃ q, d = Fin q ∧ v = VInt (truncate q).
Proof. destruct d; simpl; try done. intros [= <-]. eauto. Qed.

(* ===================================================================== *)
(** * transform_agri_data *)
(* ===================================================================== *)

Section AgriTransform.

Variable parse_float : string → double.

Lemma agri_names_year l :
  rename_label agri_names l = "year"%string → l = "crop_year"%string ∨ l = "year"%string.
Proof.
  cbn [rename_label agri_names].
  repeat match goal with
         | |- context [String.eqb ?a l] =>
             destruct (String.eqb_spec a l) as [<-|_]; [first [by intros [=] | by auto]|]
         end.
  auto.
Qed.

Lemma agri_names_production l :
  rename_label agri_names l = "production_tonnes"%string →
  l = "production_"%string ∨ l = "production_tonnes"%string.
Proof.
  cbn [rename_label agri_names].
  repeat match goal with
         | |- context [String.eqb ?a l] =>
             destruct (String.eqb_spec a l) as [<-|_]; [first [by intros [=] | by auto]|]
         end.
  auto.
Qed.

Lemma renamed_year records rec :
  raw_labels rec →
  cell (agri_projected records rec) "year" = cell rec "crop_year" ∨
  cell (agri_projected records rec) "year" = VFloat NaN.
Proof.
  intros [Hy _]. unfold agri_projected, cell at 1 3.
  destruct (relabel id _ _ !! "year"%string) as [v|] eqn:H; [left|by right].
  apply relabel_lookup_Some in H as (l & _ & Hl & H). unfold id in Hl. subst l.
  apply relabel_lookup_Some in H as (l' & _ & Hl' & H).
  apply agri_names_year in Hl' as [->| ->]; [|congruence].
  unfold cell. by rewrite H.
Qed.

Lemma renamed_production records rec :
  raw_labels rec →
  cell (agri_projected records rec) "production_tonnes" = cell rec "production_" ∨
  cell (agri_projected records rec) "production_tonnes" = VFloat NaN.
Proof.
  intros [_ Hp]. unfold agri_projected, cell at 1 3.
  destruct (relabel id _ _ !! "production_tonnes"%string) as [v|] eqn:H; [left|by right].
  apply relabel_lookup_Some in H as (l & _ & Hl & H). unfold id in Hl. subst l.
  apply relabel_lookup_Some in H as (l' & _ & Hl' & H).
  apply agri_names_production in Hl' as [->| ->]; [|congruence].
  unfold cell. by rewrite H.
Qed.

End AgriTransform.

Lemma cell_insert_eq row l v : cell (<[l:=v]> row) l = v.
Proof. unfold cell. by rewrite lookup_insert_eq. Qed.

Lemma cell_insert_ne row l l' v : l ≠ l' → cell (<[l:=v]> row) l' = cell row l'.
Proof. intros. unfold cell. by rewrite lookup_insert_ne. Qed.

Section AgriClaim.

Variable parse_float : string → double.

(** Where a row of the cleaned frame comes from: the record at its index,
    whose year and production read as numbers. *)
Lemma agri_row_origin records source_url df i r :
  transform_agri_data parse_float records source_url = Ok df →
  (i, r) ∈ rows df →
  ∃ rec q d,
    records !! i = Some rec ∧
    to_numeric parse_float (cell (agri_projected records rec) "year") = VFloat (Fin q) ∧
    r !! "year"%string = Some (VInt (truncate q)) ∧
    to_numeric parse_float (cell (agri_projected records rec) "production_tonnes") = VFloat d ∧
    d ≠ NaN ∧
    r !! "production_tonnes"%string = Some (VFloat d).
Proof.
  intros H Hin. unfold transform_agri_data in H.
  bind_as H d1 E1. bind_as H d2 E2. bind_as H d3 E3. bind_as H d4 E4.
  bind_as H d5 E5. bind_as H d6 E6. bind_as H d7 E7. bind_as H d8 E8.
  bind_as H d9 E9. injection H as <-.
  apply rename_Ok in E1. apply select_Ok in E2. apply map_column_Ok in E3.
  apply map_column_Ok in E4. apply dropna_Ok in E5. apply astype_int_Ok in E6.
  apply str_strip_title_Ok in E7. apply str_strip_title_Ok in E8.
  apply str_strip_title_Ok in E9.
  (* back through the three normalisations of text *)
  rewrite E9 in Hin. apply elem_of_map_rows in Hin as (r8 & Hin & ->).
  rewrite E8 in Hin. apply elem_of_map_rows in Hin as (r7 & Hin & ->).
  rewrite E7 in Hin. apply elem_of_map_rows in Hin as (r6 & Hin & ->).
  (* the cast of the year *)
  destruct (astype_int_rows_elem _ _ _ _ _ E6 Hin) as (r5 & v & Hin5 & Hv & ->).
  (* the rows that dropna keeps *)
  rewrite E5 in Hin5. apply list_elem_of_filter in Hin5 as [Hcomplete Hin4].
  cbn [complete forallb snd] in Hcomplete.
  apply Is_true_true in Hcomplete.
  apply andb_true_iff in Hcomplete as [Hy [Hp _]%andb_true_iff].
  apply negb_true_iff in Hy, Hp.
  (* the two numeric columns, the source, the projection, the renaming *)
  rewrite E4 in Hin4. apply elem_of_map_rows in Hin4 as (r3 & Hin3 & ->).
  rewrite E3 in Hin3. apply elem_of_map_rows in Hin3 as (r2' & Hin2 & ->).
  unfold assign in Hin2. cbn [rows] in Hin2.
  apply elem_of_map_rows in Hin2 as (r2 & Hin2 & ->).
  rewrite E2 in Hin2. apply elem_of_map_rows in Hin2 as (r1 & Hin1 & ->).
  rewrite E1 in Hin1. apply elem_of_map_rows in Hin1 as (rec & Hin0 & ->).
  apply elem_of_pd_DataFrame in Hin0.
  fold (agri_projected records rec) in *.
  repeat (rewrite cell_insert_eq in Hy || rewrite cell_insert_ne in Hy by done).
  repeat (rewrite cell_insert_eq in Hv || rewrite cell_insert_ne in Hv by done).
  repeat (rewrite cell_insert_eq in Hp || rewrite cell_insert_ne in Hp by done).
  destruct (to_numeric_float parse_float (cell (agri_projected records rec) "year"))
    as [dy Hdy].
  destruct (to_numeric_float parse_float (cell (agri_projected records rec) "production_tonnes"))
    as [dp Hdp].
  rewrite Hdy in Hy, Hv. rewrite Hdp in Hp.
  apply int_of_cell_float in Hv as (q & -> & ->).
  exists rec, q, dp. split; [done|]. split; [done|].
  split.
  { rewrite !lookup_insert_ne by done. apply lookup_insert_eq. }
  split; [done|]. split; [by apply isna_VFloat|].
  rewrite !lookup_insert_ne by done. rewrite lookup_insert_eq. f_equal.
  repeat (rewrite cell_insert_eq || rewrite cell_insert_ne by done).
  done.
Qed.

(** For a record keyed by the raw names, the numbers of its row are those of
    its crop_year and production_ fields. *)
Lemma agri_row_provenance records source_url df i r rec :
  transform_agri_data parse_float records source_url = Ok df →
  (i, r) ∈ rows df →
  records !! i = Some rec →
  raw_labels rec →
  ∃ q d,
    to_numeric parse_float (cell rec "crop_year") = VFloat (Fin q) ∧
    r !! "year"%string = Some (VInt (truncate q)) ∧
    to_numeric parse_float (cell rec "production_") = VFloat d ∧
    d ≠ NaN ∧
    r !! "production_tonnes"%string = Some (VFloat d).
Proof.
  intros H Hin Hrec Hraw.
  destruct (agri_row_origin records source_url df i r H Hin)
    as (rec' & q & d & Hrec' & Hy & Hry & Hp & Hd & Hrp).
  rewrite Hrec in Hrec'. injection Hrec' as <-.
  exists q, d.
  destruct (renamed_year records rec Hraw) as [Hyear|Hyear]; rewrite Hyear in Hy; [|done].
  destruct (renamed_production records rec Hraw) as [Hprod|Hprod]; rewrite Hprod in Hp.
  - done.
  - injection Hp as <-. done.
Qed.

(** C1: every row of the cleaned agriculture frame holds an integer year and
    a production that is a number; a raw record whose crop_year is missing or
    no number, or whose production_ is no number, leaves no row. *)
Theorem agri_rows_have_year_and_production records source_url df :
  transform_agri_data parse_float records source_url = Ok df →
  (∀ i r, (i, r) ∈ rows df →
     ∃ z d, r !! "year"%string = Some (VInt z) ∧
            r !! "production_tonnes"%string = Some (VFloat d) ∧ d ≠ NaN) ∧
  (∀ i rec, records !! i = Some rec → raw_labels rec →
     isna (cell rec "crop_year") = true ∨
     to_numeric parse_float (cell rec "crop_year") = VFloat NaN ∨
     to_numeric parse_float (cell rec "production_") = VFloat NaN →
     ∀ r, (i, r) ∉ rows df).
Proof.
  intros H. split.
  - intros i r Hin.
    destruct (agri_row_origin records source_url df i r H Hin)
      as (rec & q & d & _ & _ & Hy & _ & Hd & Hp). eauto.
  - intros i rec Hrec Hraw Hbad r Hin.
    destruct (agri_row_provenance records source_url df i r rec H Hin Hrec Hraw)
      as (q & d & Hy & _ & Hp & Hd & _).
    destruct Hbad as [Hmissing|[Hnan|Hnan]].
    + apply (to_numeric_missing parse_float) in Hmissing. congruence.
    + congruence.
    + congruence.
Qed.

End AgriClaim.

(* ===================================================================== *)
(** * The steps of transform_climate_data *)
(* ===================================================================== *)

Lemma columns_pd_DataFrame records l :
  l ∈ columns (pd_DataFrame records) ↔ ∃ rec, rec ∈ records ∧ is_Some (rec !! l).
Proof.
  cbn [pd_DataFrame columns]. rewrite elem_of_remove_dups, list_elem_of_bind. split.
  - intros (rec & Hl & Hrec). exists rec. split; [done|].
    apply list_elem_of_fmap in Hl as ([l' v] & -> & Hlv).
    apply elem_of_map_to_list in Hlv. simpl. eauto.
  - intros (rec & Hrec & [v Hv]). exists rec. split; [|done].
    apply list_elem_of_fmap. exists (l, v). split; [done|]. by apply elem_of_map_to_list.
Qed.

Lemma rename_label_climate l : rename_label climate_names l = l.
Proof.
  cbn [rename_label climate_names].
  repeat match goal with
         | |- context [String.eqb ?a l] => destruct (String.eqb_spec a l) as [<-|_]; [done|]
         end.
  done.
Qed.

(** Relabelling with the identity keeps the named cells and drops the rest. *)
Lemma relabel_same f labels row k :
  (∀ l, f l = l) →
  relabel f labels row !! k = if decide (k ∈ labels) then row !! k else None.
Proof.
  intros Hf. unfold relabel. induction labels as [|l labels IH]; cbn [foldr].
  - rewrite lookup_empty. case_decide as H; [by apply elem_of_nil in H|done].
  - destruct (row !! l) as [w|] eqn:Hl.
    + rewrite Hf. destruct (decide (k = l)) as [->|Hne].
      * by rewrite lookup_insert_eq, decide_True by left.
      * rewrite lookup_insert_ne, IH by done.
        destruct (decide (k ∈ labels)) as [Hin|Hnin],
                 (decide (k ∈ l :: labels)) as [Hin'|Hnin']; try done; exfalso.
        -- apply Hnin'. by right.
        -- by apply elem_of_cons in Hin' as [?|?].
    + rewrite IH. destruct (decide (k = l)) as [->|Hne].
      * rewrite Hl. by repeat case_decide.
      * destruct (decide (k ∈ labels)) as [Hin|Hnin],
                 (decide (k ∈ l :: labels)) as [Hin'|Hnin']; try done; exfalso.
        -- apply Hnin'. by right.
        -- by apply elem_of_cons in Hin' as [?|?].
Qed.


Section ClimateTransform.

Variable parse_float : string → double.

Lemma map_rows_id df : map_rows (λ row, row) df = rows df.
Proof.
  unfold map_rows. rewrite <- (list_fmap_id (rows df)) at 2.
  apply list_fmap_ext. by intros _ [] _.
Qed.

(** The loop over the month columns leaves the labels alone, turns every
    month cell present into a number and touches no other cell. *)
Lemma coerce_columns_spec months df :
  NoDup months →
  ∃ g,
    columns (foldl (coerce_column parse_float) df months) = columns df ∧
    rows (foldl (coerce_column parse_float) df months) = map_rows g df ∧
    (∀ row l, l ∉ months → g row !! l = row !! l) ∧
    (∀ row m, m ∈ months → m ∈ columns df →
       cell (g row) m = to_numeric parse_float (cell row m)).
Proof.
  revert df. induction months as [|m months IH]; intros df Hnd; cbn [foldl].
  - exists (λ row, row). rewrite map_rows_id. repeat split; try done.
    intros row m Hm. by apply elem_of_nil in Hm.
  - apply NoDup_cons in Hnd as [Hm Hnd].
    destruct (IH (coerce_column parse_float df m) Hnd) as (g & Hcols & Hrows & Hother & Hmonth).
    set (h := λ row : gmap string value,
           if has_column df m then <[m := to_numeric parse_float (cell row m)]> row else row).
    assert (columns (coerce_column parse_float df m) = columns df) as Hc
      by (unfold coerce_column; by destruct (has_column df m)).
    assert (rows (coerce_column parse_float df m) = map_rows h df) as Hr.
    { unfold coerce_column, h. destruct (has_column df m); [done|].
      by rewrite map_rows_id. }
    exists (λ row, g (h row)). split; [by rewrite Hcols|]. split.
    { rewrite Hrows. unfold map_rows. rewrite Hr. unfold map_rows.
      rewrite <- list_fmap_compose. done. }
    split.
    + intros row l Hl. rewrite Hother by (intros ?; apply Hl; by right).
      unfold h. destruct (has_column df m); [|done].
      apply lookup_insert_ne. intros ->. apply Hl. left.
    + intros row m' Hm' Hin. apply elem_of_cons in Hm' as [->|Hm'].
      * unfold cell at 1. rewrite Hother by done. unfold h, has_column.
        rewrite bool_decide_eq_true_2 by done. by rewrite lookup_insert_eq.
      * rewrite Hmonth by (by rewrite ?Hc). f_equal.
        unfold h. destruct (has_column df m); [|done].
        apply cell_insert_ne. intros ->. done.
Qed.



End ClimateTransform.

(* ===================================================================== *)
(** * Frames with one row per key *)
(* ===================================================================== *)











(* ===================================================================== *)
(** * transform_climate_data on one record *)
(* ===================================================================== *)

Section ClimateClaim.

Variable parse_float : string → double.



Lemma NoDup_month_columns_raw : NoDup month_columns_raw.
Proof. apply (bool_decide_unpack _). vm_compute. exact I. Qed.

Lemma month_is_no_id_var m :
  m ∈ month_columns_raw → m ≠ "subdivision"%string ∧ m ≠ "year"%string.
Proof.
  intros Hm. split; intros ->; revert Hm; apply (bool_decide_unpack _); vm_compute; exact I.
Qed.


End ClimateClaim.
(* ===================================================================== *)
(** * load_to_duckdb *)
(* ===================================================================== *)

Lemma load_to_duckdb_lookup (dataframes : gmap string DataFrame) (con : gmap string Table) name :
  load_to_duckdb dataframes con !! name =
  match dataframes !! name with
  | Some df => Some (select_all df)
  | None => con !! name
  end.
Proof.
  unfold load_to_duckdb.
  apply (map_fold_weak_ind (λ r (m : gmap string DataFrame),
           r !! name = match m !! name with
                       | Some df => Some (select_all df)
                       | None => con !! name
                       end)).
  - by rewrite lookup_empty.
  - intros i df m r Hi IH.
    destruct (decide (i = name)) as [->|Hne].
    + by rewrite !lookup_insert_eq.
    + by rewrite !lookup_insert_ne.
Qed.

(** C9: after two loads that both name a table, the table holds the rows of
    the second frame and nothing of the first. *)
Theorem second_load_replaces_the_table
    (first second : gmap string DataFrame) (con : gmap string Table) table_name df1 df2 :
  first !! table_name = Some df1 →
  second !! table_name = Some df2 →
  load_to_duckdb second (load_to_duckdb first con) !! table_name = Some (select_all df2) ∧
  ∀ t, load_to_duckdb second (load_to_duckdb first con) !! table_name = Some t →
       table_rows t = (rows df2).*2.
Proof.
  intros _ H2. rewrite load_to_duckdb_lookup, H2. split; [done|].
  by intros t [= <-].
Qed.

(* ===================================================================== *)
(** * From the cleaned frame to the stored table *)
(* ===================================================================== *)

Lemma select_columns labels df df' : select labels df = Ok df' → columns df' = labels.
Proof. unfold select. intros H. bind_ok H. by injection H as <-. Qed.

Lemma map_column_columns label f df df' :
  map_column label f df = Ok df' → columns df' = columns df.
Proof. unfold map_column. intros H. bind_ok H. by injection H as <-. Qed.

Lemma dropna_columns subset df df' : dropna subset df = Ok df' → columns df' = columns df.
Proof. unfold dropna. intros H. bind_ok H. by injection H as <-. Qed.

Lemma astype_int_columns label df df' :
  astype_int label df = Ok df' → columns df' = columns df.
Proof. unfold astype_int. intros H. bind_ok H. bind_ok H. by injection H as <-. Qed.

Lemma str_strip_title_columns label df df' :
  str_strip_title label df = Ok df' → columns df' = columns df.
Proof.
  unfold str_strip_title. intros H. bind_ok H. case_match; [|done]. by injection H as <-.
Qed.

Lemma mapM_Some_Forall {A B} (f : A → option B) (P : B → Prop) (l : list A) :
  (∀ x, x ∈ l → ∃ y, f x = Some y ∧ P y) →
  ∃ ys, mapM f l = Some ys ∧ Forall P ys.
Proof.
  induction l as [|x l IH]; intros H.
  - exists []. split; [done|constructor].
  - destruct (H x) as (y & Hy & HP); [left|].
    destruct IH as (ys & Hys & HPs); [intros z Hz; apply H; by right|].
    exists (y :: ys). split; [|by constructor].
    cbn [mapM]. rewrite Hy. cbn [mbind option_bind]. rewrite Hys. done.
Qed.

Lemma as_varchar_strip_title v : ∃ s, as_varchar (strip_title v) = Some s.
Proof. destruct v; simpl; eauto. Qed.

Section AgriTable.

Variable parse_float : string → double.

Lemma agri_frame_columns records source_url df :
  transform_agri_data parse_float records source_url = Ok df →
  columns df = ["state"; "district"; "crop"; "year"; "season"; "area_hectare";
                "production_tonnes"; "source_url"]%string.
Proof.
  intros H. unfold transform_agri_data in H.
  bind_as H d1 E1. bind_as H d2 E2. bind_as H d3 E3. bind_as H d4 E4.
  bind_as H d5 E5. bind_as H d6 E6. bind_as H d7 E7. bind_as H d8 E8.
  bind_as H d9 E9. injection H as <-.
  rewrite (str_strip_title_columns _ _ _ E9), (str_strip_title_columns _ _ _ E8),
    (str_strip_title_columns _ _ _ E7), (astype_int_columns _ _ _ E6),
    (dropna_columns _ _ _ E5), (map_column_columns _ _ _ _ E4),
    (map_column_columns _ _ _ _ E3).
  unfold assign, has_column. cbn [columns]. rewrite (select_columns _ _ _ E2).
  rewrite bool_decide_eq_false_2; [done|].
  apply (bool_decide_unpack _). vm_compute. exact I.
Qed.

(** Every row of the cleaned frame reads under the column types of
    agriculture_production, with the source URL the transform was given. *)
Lemma agri_row_reads records source_url df i r :
  transform_agri_data parse_float records source_url = Ok df →
  (i, r) ∈ rows df →
  ∃ row, AgricultureProduction.read r = Some row ∧
         AgricultureProduction.source_url row = Some source_url.
Proof.
  intros H Hin. unfold transform_agri_data in H.
  bind_as H d1 E1. bind_as H d2 E2. bind_as H d3 E3. bind_as H d4 E4.
  bind_as H d5 E5. bind_as H d6 E6. bind_as H d7 E7. bind_as H d8 E8.
  bind_as H d9 E9. injection H as <-.
  apply map_column_Ok in E3. apply map_column_Ok in E4. apply dropna_Ok in E5.
  apply astype_int_Ok in E6. apply str_strip_title_Ok in E7.
  apply str_strip_title_Ok in E8. apply str_strip_title_Ok in E9.
  rewrite E9 in Hin. apply elem_of_map_rows in Hin as (r8 & Hin & ->).
  rewrite E8 in Hin. apply elem_of_map_rows in Hin as (r7 & Hin & ->).
  rewrite E7 in Hin. apply elem_of_map_rows in Hin as (r6 & Hin & ->).
  destruct (astype_int_rows_elem _ _ _ _ _ E6 Hin) as (r5 & v & Hin5 & Hv & ->).
  rewrite E5 in Hin5. apply list_elem_of_filter in Hin5 as [_ Hin4].
  rewrite E4 in Hin4. apply elem_of_map_rows in Hin4 as (r3 & Hin3 & ->).
  rewrite E3 in Hin3. apply elem_of_map_rows in Hin3 as (r2' & Hin2 & ->).
  unfold assign in Hin2. cbn [rows] in Hin2.
  apply elem_of_map_rows in Hin2 as (r2 & _ & ->).
  repeat (rewrite cell_insert_eq in Hv || rewrite cell_insert_ne in Hv by done).
  destruct (to_numeric_float parse_float (cell r2 "year")) as [dy Hdy].
  rewrite Hdy in Hv. apply int_of_cell_float in Hv as (q & -> & ->).
  unfold AgricultureProduction.read.
  repeat (rewrite cell_insert_eq || rewrite cell_insert_ne by done).
  destruct (as_varchar_strip_title (cell r2 "state")) as [st ->].
  destruct (as_varchar_strip_title (cell r2 "crop")) as [cr ->].
  destruct (to_numeric_float parse_float (cell r2 "production_tonnes")) as [dp ->].
  cbn [mbind option_bind as_bigint as_varchar].
  destruct dp; cbn [as_double mbind option_bind]; eauto.
Qed.

(** Once loaded, the cleaned agriculture frame is a table that the tools can
    scan, and each of its rows cites the source URL. *)
Theorem loaded_agri_frame_is_cited records source_url df (con : gmap string Table) :
  transform_agri_data parse_float records source_url = Ok df →
  con !! "agriculture_production"%string = Some (select_all df) →
  ∃ table,
    AgricultureProduction.scan con = Done table ∧
    Forall (λ row, AgricultureProduction.source_url row = Some source_url) table.
Proof.
  intros Hdf Hcon. unfold AgricultureProduction.scan. rewrite Hcon.
  unfold has_columns, select_all. cbn [table_columns table_rows].
  rewrite (agri_frame_columns _ _ _ Hdf).
  destruct (mapM_Some_Forall AgricultureProduction.read
              (λ row, AgricultureProduction.source_url row = Some source_url)
              (rows df).*2) as (table & -> & Hurl).
  - intros r ([i r'] & -> & Hin)%list_elem_of_fmap.
    by apply (agri_row_reads records source_url df i).
  - replace (forallb _ _) with true by (vm_compute; reflexivity). eauto.
Qed.

End AgriTable.
(* ===================================================================== *)
(** * get_top_crops_by_production *)
(* ===================================================================== *)

Section TopCropsFacts.

Import AgricultureProduction TopCrops.

Lemma records_of_top_crops con state year top_m :
  records_of (get_top_crops_by_production con state year top_m) =
  match TopCrops.query con state year top_m with
  | Done result => result
  | Failed _ => []
  end.
Proof.
  unfold get_top_crops_by_production.
  destruct (TopCrops.query con state year top_m) as [[|r l]|]; done.
Qed.

(** What a successful run of the statement is made of. *)
Lemma query_Done con state year top_m result :
  TopCrops.query con state year top_m = Done result →
  ∃ table groups,
    scan con = Done table ∧
    check_limit top_m = Done () ∧
    Forall2 (λ c rec, project (filter (λ r, selected state year r = true) table) c = Done rec)
      (remove_dups (AgricultureProduction.crop <$>
                      filter (λ r, selected state year r = true) table)) groups ∧
    result = take (Z.to_nat top_m) (merge_sort by_total_desc groups).
Proof.
  unfold TopCrops.query. intros H.
  destruct (scan con) as [table|] eqn:Hscan; simpl in H; [|done].
  destruct (check_limit top_m) as [[]|] eqn:Hlim; simpl in H; [|done].
  destruct (traverse _ _) as [groups|] eqn:Hgroups; simpl in H; [|done].
  injection H as <-. exists table, groups. eauto using traverse_Done.
Qed.

Lemma project_Done matching c rec :
  project matching c = Done rec →
  TopCrops.crop rec = c ∧
  cast_integer (sql_sum (production_tonnes <$> group matching c)) = Done (total_production rec) ∧
  TopCrops.source_url rec = any_value (AgricultureProduction.source_url <$> group matching c).
Proof.
  unfold project. destruct (cast_integer _) as [total|]; simpl; [|done].
  by intros [= <-].
Qed.


Lemma groups_elem matching keys groups rec :
  Forall2 (λ c rec, project matching c = Done rec) keys groups →
  rec ∈ groups →
  TopCrops.crop rec ∈ keys ∧ project matching (TopCrops.crop rec) = Done rec.
Proof.
  induction 1 as [|c rec' keys groups Hp _ IH]; intros Hin; [by apply elem_of_nil in Hin|].
  apply elem_of_cons in Hin as [->|Hin].
  - pose proof Hp as Hp'. apply project_Done in Hp' as [-> _]. split; [left|done].
  - destruct (IH Hin). split; [by right|done].
Qed.

Lemma result_elem con state year top_m table result rec :
  TopCrops.query con state year top_m = Done result →
  scan con = Done table →
  rec ∈ result →
  let matching := filter (λ r, selected state year r = true) table in
  (∃ r, r ∈ matching ∧ AgricultureProduction.crop r = TopCrops.crop rec) ∧
  project matching (TopCrops.crop rec) = Done rec.
Proof.
  intros Hq Hscan Hin matching.
  apply query_Done in Hq as (table' & groups & Hscan' & _ & Hgroups & ->).
  rewrite Hscan in Hscan'. injection Hscan' as <-.
  apply elem_of_take in Hin as (_ & Hin%list_elem_of_lookup_2 & _).
  rewrite merge_sort_Permutation in Hin.
  destruct (groups_elem _ _ _ _ Hgroups Hin) as [Hkey Hp]. split; [|done].
  apply elem_of_remove_dups, list_elem_of_fmap in Hkey as (r & Hc & Hr). eauto.
Qed.

End TopCropsFacts.



(** C5: when no stored row matches the state and the year, the tool returns
    the no-data sentence, which names the state and the year (for a limit the
    engine accepts and stored years within INTEGER). *)
Theorem no_matching_row_gives_the_no_data_sentence con state year top_m table :
  sql_literal_safe state = true →
  0 < top_m < 2 ^ 63 →
  AgricultureProduction.scan con = Done table →
  Forall (λ r, fits_integer (AgricultureProduction.year r)) table →
  (∀ r, r ∈ table → TopCrops.selected state year r = false) →
  get_top_crops_by_production con state year top_m = Text (no_production_data state year).
Proof.
  intros _ Hlim Hscan _ Hnone.
  unfold get_top_crops_by_production, TopCrops.query.
  rewrite Hscan, check_limit_Done by lia. simpl.
  rewrite filter_none by (intros r Hr; rewrite (Hnone r Hr); done).
  simpl. unfold merge_sort. simpl. by rewrite take_nil.
Qed.




(* ===================================================================== *)
(** * Totals beyond the INTEGER range *)
(* ===================================================================== *)

Lemma traverse_Failed {A B} (f : A → outcome B) l x e0 :
  x ∈ l → f x = Failed e0 → (∀ y e, f y = Failed e → e = e0) →
  traverse f l = Failed e0.
Proof.
  intros Hin Hx Hall. induction l as [|y l IH]; [by apply elem_of_nil in Hin|].
  cbn [traverse]. destruct (f y) as [b|e] eqn:Hy; cbn [mbind outcome_bind].
  - apply elem_of_cons in Hin as [->|Hin]; [congruence|].
    by rewrite IH.
  - by rewrite (Hall y e Hy).
Qed.

Lemma project_Failed matching c e :
  TopCrops.project matching c = Failed e → e = ConversionException.
Proof.
  unfold TopCrops.project.
  destruct (sql_sum _) as [[| | |q]|]; cbn [cast_integer mbind outcome_bind]; try congruence.
  case_match; cbn [mbind outcome_bind]; congruence.
Qed.

Lemma cast_integer_overflow q :
  2 ^ 31 ≤ truncate q → cast_integer (Some (Fin q)) = Failed ConversionException.
Proof.
  unfold truncate, cast_integer. intros H.
  assert (0 < Z.pos (Qden q)) as Hd by lia.
  assert (0 ≤ Qnum q) as Hn.
  { destruct (Z.lt_ge_cases (Qnum q) 0) as [Hneg|]; [|done].
    pose proof (Z.quot_opp_l (- Qnum q) (Z.pos (Qden q))) as Hq.
    rewrite Z.opp_involutive in Hq.
    pose proof (Z.quot_pos (- Qnum q) (Z.pos (Qden q))). lia. }
  rewrite Z.quot_div_nonneg in H by lia.
  pose proof (Z.mul_div_le (Qnum q) (Z.pos (Qden q)) Hd) as Hle.
  assert ((Qnum q <? 2 ^ 31 * Z.pos (Qden q)) = false) as -> by (apply Z.ltb_ge; nia).
  by rewrite andb_false_r.
Qed.

(** When the summed production of one selected crop reaches 2^31, the
    conversion to INTEGER fails and the tool returns its error sentence (for
    every crop of the state and the year, also those with small totals). *)
Theorem oversized_total_fails_the_query con state year top_m table r q :
  sql_literal_safe state = true →
  0 < top_m < 2 ^ 63 →
  AgricultureProduction.scan con = Done table →
  r ∈ table →
  TopCrops.selected state year r = true →
  sql_sum (AgricultureProduction.production_tonnes <$>
             TopCrops.group (filter (λ r, TopCrops.selected state year r = true) table)
               (AgricultureProduction.crop r)) = Some (Fin q) →
  2 ^ 31 ≤ truncate q →
  get_top_crops_by_production con state year top_m = ErrorText ConversionException.
Proof.
  intros _ Hlim Hscan Hr Hsel Hsum Hq.
  unfold get_top_crops_by_production, TopCrops.query.
  rewrite Hscan, check_limit_Done by lia. cbn [mbind outcome_bind].
  rewrite (traverse_Failed _ _ (AgricultureProduction.crop r) ConversionException).
  - done.
  - apply elem_of_remove_dups, list_elem_of_fmap. exists r. split; [done|].
    by apply list_elem_of_filter.
  - unfold TopCrops.project. rewrite Hsum, cast_integer_overflow by done. done.
  - intros c e. apply project_Failed.
Qed.

(* ===================================================================== *)
(** * get_average_annual_rainfall *)
(* ===================================================================== *)






(** C10: when no stored row matches the subdivision and the range of years,
    the tool still returns a result set of one record, both of whose fields
    are null; it returns neither a sentence nor an empty array. *)
Theorem no_rainfall_rows_give_one_null_record con subdivision start_year end_year table :
  sql_literal_safe subdivision = true →
  ClimateRainfall.scan con = Done table →
  (∀ r, r ∈ table → AverageRainfall.selected subdivision start_year end_year r = false) →
  get_average_annual_rainfall con subdivision start_year end_year =
    Json [ {| AverageRainfall.average_annual_rainfall := None;
              AverageRainfall.source_url := None |} ].
Proof.
  intros _ Hscan Hnone.
  unfold get_average_annual_rainfall, AverageRainfall.query. rewrite Hscan. simpl.
  rewrite filter_none by (intros r Hr; rewrite (Hnone r Hr); done).
  reflexivity.
Qed.

(* ===================================================================== *)
(** * The transforms on the sample records *)
(* ===================================================================== *)

Lemma sample_agri_frame_Ok :
  transform_agri_data parse_decimal sample_agri_records agri_url = Ok sample_agri_frame.
Proof. vm_compute. reflexivity. Qed.

(** The sixth record, whose production_ is the text NA, leaves no row. *)
Example sample_agri_frame_index : (rows sample_agri_frame).*1 = [0; 1; 2; 3; 4; 6]%nat.
Proof. vm_compute. reflexivity. Qed.

Lemma agri_rows_have_year_and_production_witness :
  (∀ i r, (i, r) ∈ rows sample_agri_frame →
     ∃ z d, r !! "year"%string = Some (VInt z) ∧
            r !! "production_tonnes"%string = Some (VFloat d) ∧ d ≠ NaN) ∧
  (∀ i rec, sample_agri_records !! i = Some rec → raw_labels rec →
     isna (cell rec "crop_year") = true ∨
     to_numeric parse_decimal (cell rec "crop_year") = VFloat NaN ∨
     to_numeric parse_decimal (cell rec "production_") = VFloat NaN →
     ∀ r, (i, r) ∉ rows sample_agri_frame).
Proof.
  apply (agri_rows_have_year_and_production parse_decimal sample_agri_records agri_url
           sample_agri_frame).
  exact sample_agri_frame_Ok.
Defined.



Lemma second_load_replaces_the_table_witness :
  load_to_duckdb {[ "climate_rainfall"%string := gappy_year_frame ]}
    (load_to_duckdb sample_dataframes ∅) !! "climate_rainfall"%string
    = Some (select_all gappy_year_frame) ∧
  ∀ t, load_to_duckdb {[ "climate_rainfall"%string := gappy_year_frame ]}
         (load_to_duckdb sample_dataframes ∅) !! "climate_rainfall"%string = Some t →
       table_rows t = (rows gappy_year_frame).*2.
Proof.
  apply (second_load_replaces_the_table sample_dataframes
           {[ "climate_rainfall"%string := gappy_year_frame ]} ∅ "climate_rainfall"
           (frame_or_empty (transform_climate_data parse_decimal [full_year_record] climate_url))
           gappy_year_frame).
  - vm_compute. reflexivity.
  - vm_compute. reflexivity.
Defined.
Lemma loaded_agri_frame_is_cited_witness :
  ∃ table,
    AgricultureProduction.scan sample_con = Done table ∧
    Forall (λ row, AgricultureProduction.source_url row = Some agri_url) table.
Proof.
  apply (loaded_agri_frame_is_cited parse_decimal sample_agri_records agri_url
           sample_agri_frame sample_con).
  - exact sample_agri_frame_Ok.
  - vm_compute. reflexivity.
Defined.

(* ===================================================================== *)
(** * The claims on the sample database *)
(* ===================================================================== *)

Lemma Done_inj {A} (a b : A) : Done a = Done b → a = b.
Proof. intros H. exact (f_equal (λ o, match o with Done x => x | Failed _ => a end) H). Qed.

Lemma sample_agriculture_scan : AgricultureProduction.scan sample_con = Done sample_agriculture.
Proof. vm_compute. reflexivity. Qed.

Lemma sample_rainfall_scan : ClimateRainfall.scan sample_con = Done sample_rainfall.
Proof. vm_compute. reflexivity. Qed.






Lemma no_matching_row_gives_the_no_data_sentence_witness :
  get_top_crops_by_production sample_con "Punjab" 2011 3 =
  Text (no_production_data "Punjab" 2011).
Proof.
  apply (no_matching_row_gives_the_no_data_sentence sample_con "Punjab" 2011 3 sample_agriculture).
  - reflexivity.
  - lia.
  - exact sample_agriculture_scan.
  - apply (bool_decide_unpack _). vm_compute. exact I.
  - apply Forall_forall, (bool_decide_unpack _). vm_compute. exact I.
Defined.

Example no_production_data_text :
  no_production_data "Punjab" 2011 = "No production data found for Punjab in 2011."%string.
Proof. reflexivity. Qed.





Example average_rainfall_of_the_sample :
  get_average_annual_rainfall sample_con "punjab" 2010 2010 =
  Json [ {| AverageRainfall.average_annual_rainfall := Some (Fin (Q2Qc (157 # 2)));
            AverageRainfall.source_url := Some climate_url |} ].
Proof.
  vm_compute. reflexivity.
Qed.


Lemma no_rainfall_rows_give_one_null_record_witness :
  get_average_annual_rainfall sample_con "Kerala" 2010 2012 =
    Json [ {| AverageRainfall.average_annual_rainfall := None;
              AverageRainfall.source_url := None |} ].
Proof.
  apply (no_rainfall_rows_give_one_null_record sample_con "Kerala" 2010 2012 sample_rainfall).
  - reflexivity.
  - exact sample_rainfall_scan.
  - apply Forall_forall, (bool_decide_unpack _). vm_compute. exact I.
Defined.
Lemma oversized_total_fails_the_query_witness :
  get_top_crops_by_production sample_con "Kerala" 2010 3 = ErrorText ConversionException.
Proof.
  apply (oversized_total_fails_the_query sample_con "Kerala" 2010 3 sample_agriculture
           kerala_row kerala_coconuts).
  - reflexivity.
  - lia.
  - exact sample_agriculture_scan.
  - apply list_elem_of_lookup. exists 5%nat. vm_compute. reflexivity.
  - reflexivity.
  - vm_compute. reflexivity.
  - vm_compute. discriminate.
Defined.

(* ===================================================================== *)
(** * Text: title case and patterns with wildcards *)
(* ===================================================================== *)













(* ===================================================================== *)
(** * get_top_crops_by_production: which crops the limit keeps *)
(* ===================================================================== *)

Lemma desc_transitive : Transitive desc.
Proof. intros [x|] [y|] [z|]; simpl; try done. lia. Qed.

Lemma by_total_desc_transitive : Transitive TopCrops.by_total_desc.
Proof. intros a b c. apply desc_transitive. Qed.

Lemma top_crops_Json con state year top_m result :
  get_top_crops_by_production con state year top_m = Json result →
  TopCrops.query con state year top_m = Done result.
Proof.
  unfold get_top_crops_by_production.
  destruct (TopCrops.query con state year top_m) as [[|rec l]|]; intros [=]; by subst.
Qed.

Lemma groups_of_key matching keys groups c :
  Forall2 (λ c rec, TopCrops.project matching c = Done rec) keys groups →
  c ∈ keys →
  ∃ rec, rec ∈ groups ∧ TopCrops.project matching c = Done rec.
Proof.
  induction 1 as [|c' rec keys groups Hp _ IH]; intros Hin; [by apply elem_of_nil in Hin|].
  apply elem_of_cons in Hin as [->|Hin].
  - exists rec. split; [left|done].
  - destruct (IH Hin) as (rec' & ? & ?). exists rec'. split; [by right|done].
Qed.

(** The records returned are as many as the limit allows, and a crop of the
    selected rows that is left out has a total that none of the returned
    totals is below. *)
Theorem top_crops_are_the_largest con state year top_m table result :
  sql_literal_safe state = true →
  AgricultureProduction.scan con = Done table →
  get_top_crops_by_production con state year top_m = Json result →
  length result =
    (Z.to_nat top_m `min`
     length (remove_dups (AgricultureProduction.crop <$>
                            filter (λ r, TopCrops.selected state year r = true) table)))%nat ∧
  ∀ r, r ∈ table → TopCrops.selected state year r = true →
       AgricultureProduction.crop r ∉ TopCrops.crop <$> result →
       ∃ left_out,
         TopCrops.project (filter (λ r, TopCrops.selected state year r = true) table)
           (AgricultureProduction.crop r) = Done left_out ∧
         ∀ rec, rec ∈ result → TopCrops.by_total_desc rec left_out.
Proof.
  intros _ Hscan Hq%top_crops_Json.
  apply query_Done in Hq as (table' & groups & Hscan' & _ & Hgroups & ->).
  rewrite Hscan in Hscan'. apply Done_inj in Hscan'. subst table'.
  split.
  - rewrite length_take, merge_sort_Permutation.
    by rewrite <- (Forall2_length _ _ _ Hgroups).
  - intros r Hr Hsel Hout.
    destruct (groups_of_key _ _ _ (AgricultureProduction.crop r) Hgroups)
      as (left_out & Hin & Hp).
    { apply elem_of_remove_dups, list_elem_of_fmap. exists r. split; [done|].
      by apply list_elem_of_filter. }
    exists left_out. split; [done|]. intros rec Hrec.
    pose proof (@StronglySorted_merge_sort _ TopCrops.by_total_desc _
                  by_total_desc_transitive by_total_desc_total groups) as Hsorted.
    rewrite <- (take_drop (Z.to_nat top_m) (merge_sort TopCrops.by_total_desc groups))
      in Hsorted.
    apply (StronglySorted_app_1_elem_of _ _ _ _ _ Hsorted Hrec).
    rewrite <- merge_sort_Permutation in Hin.
    rewrite <- (take_drop (Z.to_nat top_m) (merge_sort TopCrops.by_total_desc groups)) in Hin.
    apply elem_of_app in Hin as [Hin|Hin]; [|done].
    exfalso. apply Hout, list_elem_of_fmap. exists left_out. split; [|done].
    by apply project_Done in Hp as [-> _].
Qed.

Lemma top_crops_are_the_largest_witness :
  length [top_crop "Maize" 12; top_crop "Wheat" 10] =
    (Z.to_nat 2 `min`
     length (remove_dups (AgricultureProduction.crop <$>
                            filter (λ r, TopCrops.selected "Punjab" 2010 r = true)
                              sample_agriculture)))%nat ∧
  ∀ r, r ∈ sample_agriculture → TopCrops.selected "Punjab" 2010 r = true →
       AgricultureProduction.crop r ∉
         TopCrops.crop <$> [top_crop "Maize" 12; top_crop "Wheat" 10] →
       ∃ left_out,
         TopCrops.project (filter (λ r, TopCrops.selected "Punjab" 2010 r = true)
                             sample_agriculture)
           (AgricultureProduction.crop r) = Done left_out ∧
         ∀ rec, rec ∈ [top_crop "Maize" 12; top_crop "Wheat" 10] →
                TopCrops.by_total_desc rec left_out.
Proof.
  apply (top_crops_are_the_largest sample_con "Punjab" 2010 2 sample_agriculture
           [top_crop "Maize" 12; top_crop "Wheat" 10]).
  - reflexivity.
  - exact sample_agriculture_scan.
  - vm_compute. reflexivity.
Defined.



(* ===================================================================== *)
(** * get_average_annual_rainfall: years without rows *)
(* ===================================================================== *)

Lemma filter_ext_in {A} (P Q : A → Prop) `{∀ x, Decision (P x)} `{∀ x, Decision (Q x)}
    (l : list A) :
  (∀ x, x ∈ l → P x ↔ Q x) → filter P l = filter Q l.
Proof.
  induction l as [|x l IH]; intros Hl; [done|].
  assert (filter P l = filter Q l) as Hrec by (apply IH; intros y Hy; apply Hl; by right).
  destruct (decide (P x)) as [HP|HP].
  - rewrite !filter_cons_True by (done || by apply (Hl x); [left|]). by rewrite Hrec.
  - rewrite !filter_cons_False by (done || (intros HQ; apply HP, (Hl x); [left|done])). done.
Qed.

(** Widening the range of years over years in which the subdivision has no
    row leaves the answer as it is: such years count neither in the sum nor in
    the number of years averaged over. *)
Theorem years_without_rows_do_not_change_the_average
    con subdivision start_year end_year earlier later table :
  sql_literal_safe subdivision = true →
  ClimateRainfall.scan con = Done table →
  earlier ≤ start_year →
  end_year ≤ later →
  (∀ r, r ∈ table → ilike (ClimateRainfall.subdivision r) subdivision = true →
        start_year ≤ ClimateRainfall.year r ≤ end_year
        ∨ ClimateRainfall.year r < earlier ∨ later < ClimateRainfall.year r) →
  get_average_annual_rainfall con subdivision earlier later =
  get_average_annual_rainfall con subdivision start_year end_year.
Proof.
  intros _ Hscan Hlo Hhi Hrows.
  unfold get_average_annual_rainfall, AverageRainfall.query.
  rewrite Hscan. cbn [mbind outcome_bind].
  rewrite (filter_ext_in
             (λ r, AverageRainfall.selected subdivision earlier later r = true)
             (λ r, AverageRainfall.selected subdivision start_year end_year r = true)); [done|].
  intros r Hr. unfold AverageRainfall.selected.
  destruct (ilike (ClimateRainfall.subdivision r) subdivision) eqn:Hsub; [|done].
  specialize (Hrows r Hr Hsub). cbn [andb].
  rewrite !andb_true_iff, !Z.leb_le. lia.
Qed.

Lemma years_without_rows_do_not_change_the_average_witness :
  get_average_annual_rainfall sample_con "punjab" 1901 2017 =
  get_average_annual_rainfall sample_con "punjab" 2010 2010.
Proof.
  apply (years_without_rows_do_not_change_the_average sample_con "punjab" 2010 2010 1901 2017
           sample_rainfall).
  - reflexivity.
  - exact sample_rainfall_scan.
  - lia.
  - lia.
  - apply (proj1 (Forall_forall
                    (λ r, ilike (ClimateRainfall.subdivision r) "punjab" = true →
                          2010 ≤ ClimateRainfall.year r ≤ 2010
                          ∨ ClimateRainfall.year r < 1901 ∨ 2017 < ClimateRainfall.year r)
                    sample_rainfall)).
    apply (bool_decide_unpack _). vm_compute. exact I.
Defined.

(* ===================================================================== *)
(** * correlate_crop_and_climate *)
(* ===================================================================== *)

Lemma strictly_ascending {A} (R : relation A) (key : A → Z) l :
  (∀ a b, R a b → key a ≤ key b) →
  StronglySorted R l → NoDup (key <$> l) → StronglySorted Z.lt (key <$> l).
Proof.
  intros HR Hs. induction Hs as [|a l Hs IH Ha]; intros Hnd; [constructor|].
  rewrite fmap_cons in *. apply NoDup_cons in Hnd as [Hnotin Hnd].
  constructor; [by apply IH|].
  apply Forall_fmap, Forall_forall. intros b Hb. simpl.
  rewrite Forall_forall in Ha. specialize (HR a b (Ha b Hb)).
  assert (key a ≠ key b); [|lia].
  intros Heq. apply Hnotin. rewrite Heq. apply list_elem_of_fmap. eauto.
Qed.

(** A series with one row per key, ordered by the key. *)
Lemma sorted_series {A} (R : relation A) `{∀ a b, Decision (R a b)}
    (key : A → Z) (build : Z → A) (keys : list Z) :
  (∀ a b, R a b ↔ key a ≤ key b) →
  (∀ y, key (build y) = y) →
  NoDup keys →
  StronglySorted Z.lt (key <$> merge_sort R (build <$> keys)) ∧
  (∀ y, y ∈ key <$> merge_sort R (build <$> keys) ↔ y ∈ keys) ∧
  (∀ rec, rec ∈ merge_sort R (build <$> keys) → rec = build (key rec)) ∧
  merge_sort R (build <$> keys) ≡ₚ build <$> keys.
Proof.
  intros HR Hkey Hnd.
  assert (key <$> (build <$> keys) = keys) as Hkeys.
  { rewrite <- list_fmap_compose. rewrite <- (list_fmap_id keys) at 2.
    apply list_fmap_ext. intros _ y _. apply Hkey. }
  assert (Transitive R) as Htrans.
  { intros a b c. rewrite !HR. lia. }
  assert (Total R) as Htotal.
  { intros a b. rewrite !HR. lia. }
  split; [|split; [|split]].
  - apply (strictly_ascending R).
    + intros a b. by rewrite HR.
    + by apply StronglySorted_merge_sort.
    + by rewrite merge_sort_Permutation, Hkeys.
  - intros y. by rewrite merge_sort_Permutation, Hkeys.
  - intros rec. rewrite merge_sort_Permutation.
    intros (y & -> & _)%list_elem_of_fmap. by rewrite Hkey.
  - apply merge_sort_Permutation.
Qed.

Lemma elem_of_selected_years {A} (P : A → Prop) `{∀ x, Decision (P x)}
    (year : A → Z) (table : list A) y :
  y ∈ remove_dups (year <$> filter P table) ↔ ∃ r, r ∈ table ∧ P r ∧ year r = y.
Proof.
  rewrite elem_of_remove_dups, list_elem_of_fmap. split.
  - intros (r & -> & [? ?]%list_elem_of_filter). eauto.
  - intros (r & ? & ? & <-). exists r. split; [done|]. by apply list_elem_of_filter.
Qed.

(** When both tables can be read the tool returns two series; each has one
    row per year in which a selected row exists, in strictly ascending order
    of the year, and its row of a year aggregates that year's selected rows.
    The rainfall series holds the yearly totals that
    get_average_annual_rainfall averages. *)
Theorem correlation_series_have_one_row_per_year
    con crop_name state subdivision start_year end_year agriculture rainfall :
  sql_literal_safe crop_name = true →
  sql_literal_safe state = true →
  sql_literal_safe subdivision = true →
  AgricultureProduction.scan con = Done agriculture →
  ClimateRainfall.scan con = Done rainfall →
  ∃ data,
    correlate_crop_and_climate con crop_name state subdivision start_year end_year
      = CorrelationJson data ∧
    StronglySorted Z.lt (CropTrend.year <$> crop_production_trend data) ∧
    StronglySorted Z.lt (AverageRainfall.total_year <$> rainfall_trend data) ∧
    (∀ y, y ∈ CropTrend.year <$> crop_production_trend data ↔
          ∃ r, r ∈ agriculture ∧
               CropTrend.selected crop_name state start_year end_year r = true ∧
               AgricultureProduction.year r = y) ∧
    (∀ y, y ∈ AverageRainfall.total_year <$> rainfall_trend data ↔
          ∃ r, r ∈ rainfall ∧
               AverageRainfall.selected subdivision start_year end_year r = true ∧
               ClimateRainfall.year r = y) ∧
    (∀ rec, rec ∈ crop_production_trend data →
       rec = CropTrend.project
               (filter (λ r, CropTrend.selected crop_name state start_year end_year r = true)
                  agriculture)
               (CropTrend.year rec)) ∧
    rainfall_trend data ≡ₚ
      AverageRainfall.YearlyTotals
        (filter (λ r, AverageRainfall.selected subdivision start_year end_year r = true)
           rainfall).
Proof.
  intros _ _ _ Hagri Hrain.
  unfold correlate_crop_and_climate, CropTrend.query, RainfallTrend.query.
  rewrite Hagri, Hrain. cbn [mbind outcome_bind].
  eexists. split; [reflexivity|]. cbn [crop_production_trend rainfall_trend].
  set (crops := filter (λ r, CropTrend.selected crop_name state start_year end_year r = true)
                  agriculture).
  set (rains := filter (λ r, AverageRainfall.selected subdivision start_year end_year r = true)
                  rainfall).
  destruct (sorted_series CropTrend.by_year CropTrend.year (CropTrend.project crops)
              (remove_dups (AgricultureProduction.year <$> crops)))
    as (Hc1 & Hc2 & Hc3 & _); [done|done|apply NoDup_remove_dups|].
  unfold AverageRainfall.YearlyTotals.
  destruct (sorted_series RainfallTrend.by_year AverageRainfall.total_year
              (λ y, {| AverageRainfall.total_year := y;
                       AverageRainfall.total_annual_rainfall :=
                         sql_sum (ClimateRainfall.rainfall_mm <$> AverageRainfall.group rains y);
                       AverageRainfall.total_source_url :=
                         any_value (ClimateRainfall.source_url <$> AverageRainfall.group rains y) |})
              (remove_dups (ClimateRainfall.year <$> rains)))
    as (Hr1 & Hr2 & _ & Hr4); [done|done|apply NoDup_remove_dups|].
  repeat split; try done.
  - intros Hy. apply Hc2 in Hy. by apply elem_of_selected_years in Hy.
  - intros Hy. apply Hc2. by apply elem_of_selected_years.
  - intros Hy. apply Hr2 in Hy. by apply elem_of_selected_years in Hy.
  - intros Hy. apply Hr2. by apply elem_of_selected_years.
Qed.

(** The tool answers with an error exactly when a table cannot be read, and
    the error is that of the crop statement when both fail: the rainfall
    statement is not sent then. *)
Theorem correlation_fails_with_the_first_failing_scan
    con crop_name state subdivision start_year end_year e :
  sql_literal_safe crop_name = true →
  sql_literal_safe state = true →
  sql_literal_safe subdivision = true →
  correlate_crop_and_climate con crop_name state subdivision start_year end_year
    = CorrelationError e ↔
  AgricultureProduction.scan con = Failed e
  ∨ ((∃ agriculture, AgricultureProduction.scan con = Done agriculture) ∧
     ClimateRainfall.scan con = Failed e).
Proof.
  intros _ _ _.
  unfold correlate_crop_and_climate, CropTrend.query, RainfallTrend.query.
  destruct (AgricultureProduction.scan con) as [agriculture|e1]; cbn [mbind outcome_bind].
  - destruct (ClimateRainfall.scan con) as [rainfall|e2]; cbn [mbind outcome_bind].
    + split; [done|]. by intros [|[_ ?]].
    + split; [intros [= ->]; eauto|]. intros [[=]|[_ [= ->]]]. done.
  - split; [intros [= ->]; eauto|]. intros [[= ->]|[[? [=]] _]]. done.
Qed.

Lemma correlation_series_have_one_row_per_year_witness :
  ∃ data,
    correlate_crop_and_climate sample_con "rice" "punjab" "punjab" 2009 2011
      = CorrelationJson data ∧
    StronglySorted Z.lt (CropTrend.year <$> crop_production_trend data) ∧
    StronglySorted Z.lt (AverageRainfall.total_year <$> rainfall_trend data) ∧
    (∀ y, y ∈ CropTrend.year <$> crop_production_trend data ↔
          ∃ r, r ∈ sample_agriculture ∧
               CropTrend.selected "rice" "punjab" 2009 2011 r = true ∧
               AgricultureProduction.year r = y) ∧
    (∀ y, y ∈ AverageRainfall.total_year <$> rainfall_trend data ↔
          ∃ r, r ∈ sample_rainfall ∧
               AverageRainfall.selected "punjab" 2009 2011 r = true ∧
               ClimateRainfall.year r = y) ∧
    (∀ rec, rec ∈ crop_production_trend data →
       rec = CropTrend.project
               (filter (λ r, CropTrend.selected "rice" "punjab" 2009 2011 r = true)
                  sample_agriculture)
               (CropTrend.year rec)) ∧
    rainfall_trend data ≡ₚ
      AverageRainfall.YearlyTotals
        (filter (λ r, AverageRainfall.selected "punjab" 2009 2011 r = true) sample_rainfall).
Proof.
  apply (correlation_series_have_one_row_per_year sample_con "rice" "punjab" "punjab" 2009 2011
           sample_agriculture sample_rainfall).
  - reflexivity.
  - reflexivity.
  - reflexivity.
  - exact sample_agriculture_scan.
  - exact sample_rainfall_scan.
Defined.


Lemma correlation_fails_with_the_first_failing_scan_witness :
  correlate_crop_and_climate ∅ "rice" "punjab" "punjab" 2009 2011
    = CorrelationError CatalogException ↔
  AgricultureProduction.scan ∅ = Failed CatalogException
  ∨ ((∃ agriculture, AgricultureProduction.scan ∅ = Done agriculture) ∧
     ClimateRainfall.scan ∅ = Failed CatalogException).
Proof.
  apply (correlation_fails_with_the_first_failing_scan ∅ "rice" "punjab" "punjab" 2009 2011
           CatalogException); reflexivity.
Defined.




(* ===================================================================== *)
(** * transform_climate_data on any list of records *)
(* ===================================================================== *)

Lemma rename_climate records :
  rename climate_names (pd_DataFrame records) = Ok (pd_DataFrame records).
Proof.
  unfold rename.
  assert (rename_label climate_names <$> columns (pd_DataFrame records)
          = columns (pd_DataFrame records)) as ->.
  { rewrite <- (list_fmap_id (columns _)) at 2.
    apply list_fmap_ext. intros _ l _. apply rename_label_climate. }
  rewrite bool_decide_eq_true_2 by apply NoDup_remove_dups.
  f_equal. destruct (pd_DataFrame records) as [labels rs] eqn:Hdf.
  f_equal. unfold map_rows. cbn [rows columns].
  rewrite <- (list_fmap_id rs) at 2. apply list_fmap_ext.
  intros j [i rec] Hj. unfold id. cbn beta. cbn [fst snd]. f_equal.
  assert ((i, rec) ∈ rows (pd_DataFrame records)) as Hin
    by (rewrite Hdf; eapply list_elem_of_lookup_2, Hj).
  apply elem_of_pd_DataFrame in Hin.
  apply map_eq. intros k.
  rewrite relabel_same by apply rename_label_climate.
  case_decide as Hk; [done|].
  destruct (rec !! k) as [v|] eqn:Hv; [|done].
  exfalso. apply Hk. replace labels with (columns (pd_DataFrame records)) by (by rewrite Hdf).
  apply columns_pd_DataFrame. exists rec. split; [|eauto].
  eapply list_elem_of_lookup_2, Hin.
Qed.

(** The position of a row in a list of blocks, one block per key. *)
Lemma lookup_blocks {A B C} (h : A → B → C) (keys : list A) (l : list B) i x :
  (keys ≫= (λ v, h v <$> l)) !! i = Some x →
  ∃ v y, keys !! (i / length l)%nat = Some v ∧ l !! (i mod length l)%nat = Some y ∧
         x = h v y.
Proof.
  revert i. induction keys as [|v keys IH]; intros i; [done|].
  rewrite bind_cons, lookup_app.
  destruct ((h v <$> l) !! i) as [x'|] eqn:Hi.
  - intros [= ->]. rewrite list_lookup_fmap in Hi.
    destruct (l !! i) as [y|] eqn:Hy; [|done]. injection Hi as <-.
    apply lookup_lt_Some in Hy as Hlt.
    exists v, y. rewrite Nat.div_small, Nat.mod_small by done. done.
  - apply lookup_ge_None in Hi. rewrite length_fmap in Hi. rewrite length_fmap.
    intros Hx. destruct (IH _ Hx) as (v' & y & Hv' & Hy & ->).
    assert (length l ≠ 0%nat) as Hn.
    { intros Hn. rewrite Hn in Hy. by destruct l. }
    exists v', y.
    replace i with ((i - length l) + 1 * length l)%nat at 1 2 by lia.
    rewrite Nat.div_add, Nat.Div0.mod_add by done.
    replace ((i - length l) / length l + 1)%nat with (S ((i - length l) / length l)) by lia.
    done.
Qed.

Lemma result_bind_inv {A B} (m : result A) (f : A → result B) b :
  m ≫= f = Ok b → ∃ a, m = Ok a ∧ f a = Ok b.
Proof. destruct m as [a|e]; [eauto|done]. Qed.

Lemma Ok_inj {A} (a b : A) : Ok a = Ok b → a = b.
Proof. intros H. exact (f_equal (λ o, match o with Ok x => x | Raise _ => a end) H). Qed.

Ltac bind_inv H d E := apply result_bind_inv in H as (d & E & H).

Lemma melt_Ok id_vars value_vars var_name value_name df df' :
  melt id_vars value_vars var_name value_name df = Ok df' →
  columns df' = id_vars ++ [var_name; value_name] ∧
  (∀ l, l ∈ id_vars ++ value_vars → l ∈ columns df) ∧
  (value_name ∉ columns df) ∧
  rows df' = imap (λ i row, (i, row))
               (value_vars ≫= (λ v,
                  (λ ir, <[value_name := cell ir.2 v]>
                           (<[var_name := VStr v]> (relabel id id_vars ir.2)))
                  <$> rows df)).
Proof.
  unfold melt. intros H. bind_as H u E. destruct u.
  pose proof (proj1 (require_columns_Ok _ _) E) as Hcols. unfold has_column in H.
  case_bool_decide; [done|]. by injection H as <-.
Qed.






Lemma tidy_row_built s z y m x source_url (row : gmap string value) :
  <["subdivision"%string := s]>
    (<["year"%string := VInt z]>
       (<["year"%string := y]>
          (<["source_url"%string := VStr source_url]>
             (<["rainfall_mm"%string := x]>
                (<["month"%string := VStr m]>
                   (relabel id ["subdivision"; "year"]%string row))))))
  = <["subdivision"%string := s]> (tidy_row "" z m x source_url).
Proof.
  unfold tidy_row. apply map_eq. intros k.
  destruct (decide (k = "subdivision"%string)) as [->|Hk1]; [by rewrite !lookup_insert_eq|].
  destruct (decide (k = "year"%string)) as [->|Hk2].
  { by repeat (rewrite lookup_insert_eq || rewrite lookup_insert_ne by done). }
  destruct (decide (k = "source_url"%string)) as [->|Hk3].
  { repeat (rewrite lookup_insert_eq || rewrite lookup_insert_ne by done).
    by rewrite lookup_singleton_eq. }
  destruct (decide (k = "rainfall_mm"%string)) as [->|Hk4].
  { by repeat (rewrite lookup_insert_eq || rewrite lookup_insert_ne by done). }
  destruct (decide (k = "month"%string)) as [->|Hk5].
  { by repeat (rewrite lookup_insert_eq || rewrite lookup_insert_ne by done). }
  rewrite !lookup_insert_ne, lookup_singleton_ne by done.
  rewrite relabel_same by done. rewrite decide_False; [done|].
  intros [->|[->|?%elem_of_nil]%elem_of_cons]%elem_of_cons; done.
Qed.

Section ClimateFrame.

Variable parse_float : string → double.

Lemma coerce_months_spec df :
  ∃ g,
    columns (coerce_months parse_float df) = columns df ∧
    rows (coerce_months parse_float df) = map_rows g df ∧
    (∀ row l, l ∉ month_columns_raw → g row !! l = row !! l) ∧
    (∀ row m, m ∈ month_columns_raw → m ∈ columns df →
       cell (g row) m = to_numeric parse_float (cell row m)).
Proof. exact (coerce_columns_spec parse_float month_columns_raw df NoDup_month_columns_raw). Qed.

(** Where a row of the tidy frame comes from: its index names a month and a
    record, whose year and whose value of that month read as numbers. *)
Lemma climate_row_origin records source_url df i r :
  transform_climate_data parse_float records source_url = Ok df →
  (i, r) ∈ rows df →
  ∃ rec m q d,
    records !! (i mod length records)%nat = Some rec ∧
    month_columns_raw !! (i / length records)%nat = Some m ∧
    to_numeric parse_float (cell rec "year") = VFloat (Fin q) ∧
    to_numeric parse_float (cell rec m) = VFloat d ∧
    d ≠ NaN ∧
    isna (cell rec "subdivision") = false ∧
    r = <["subdivision"%string := strip_title (cell rec "subdivision")]>
          (tidy_row "" (truncate q) m (VFloat d) source_url).
Proof.
  intros H Hin. unfold transform_climate_data in H.
  bind_inv H d0 E0. rewrite rename_climate in E0. apply Ok_inj in E0. subst d0.
  bind_inv H d1 E1. bind_inv H d2 E2. bind_inv H d3 E3. bind_inv H d4 E4. bind_inv H d5 E5.
  apply Ok_inj in H. subst df.
  destruct (coerce_months_spec (pd_DataFrame records)) as (g & Hc & Hr & Hother & Hmonth).
  apply melt_Ok in E1 as (_ & Hcols & _ & E1).
  apply map_column_Ok in E2. apply dropna_Ok in E3. apply astype_int_Ok in E4.
  apply str_strip_title_Ok in E5.
  rewrite E5 in Hin. apply elem_of_map_rows in Hin as (r4 & Hin & ->).
  destruct (astype_int_rows_elem _ _ _ _ _ E4 Hin) as (r3 & v & Hin3 & Hv & ->).
  rewrite E3 in Hin3. apply list_elem_of_filter in Hin3 as [Hcomplete Hin2].
  cbn [complete forallb snd] in Hcomplete. apply Is_true_true in Hcomplete.
  apply andb_true_iff in Hcomplete as [Hy [Hrain [Hsub _]%andb_true_iff]%andb_true_iff].
  apply negb_true_iff in Hy, Hrain, Hsub.
  rewrite E2 in Hin2. apply elem_of_map_rows in Hin2 as (r1' & Hin1 & ->).
  unfold assign in Hin1. cbn [rows] in Hin1.
  apply elem_of_map_rows in Hin1 as (r1 & Hin1 & ->).
  rewrite E1 in Hin1. apply elem_of_lookup_imap in Hin1 as (i' & r1' & [= <- <-] & Hi).
  apply lookup_blocks in Hi as (m & [j r0] & Hm & Hr0 & ->). cbn [snd] in Hy, Hv, Hrain, Hsub |- *.
  rewrite Hr in Hm, Hr0. unfold map_rows in Hm, Hr0. rewrite length_fmap in Hm, Hr0.
  cbn [pd_DataFrame rows] in Hm, Hr0. rewrite length_imap in Hm, Hr0.
  rewrite list_lookup_fmap, list_lookup_imap in Hr0.
  destruct (records !! (i mod length records)%nat) as [rec|] eqn:Hrec; [|done].
  cbn [fmap option_fmap option_map fst snd] in Hr0. injection Hr0 as <- <-.
  assert (m ∈ month_columns_raw) as Hmonth_in by (eapply list_elem_of_lookup_2, Hm).
  destruct (month_is_no_id_var m Hmonth_in) as [Hm1 Hm2].
  assert (cell (g rec) m = to_numeric parse_float (cell rec m)) as Hcell.
  { apply Hmonth; [done|]. rewrite <- Hc. apply Hcols, elem_of_app. by right. }
  assert (∀ l, l = "subdivision"%string ∨ l = "year"%string →
            cell (relabel id ["subdivision"; "year"]%string (g rec)) l = cell rec l) as Hid.
  { intros l Hl. unfold cell. rewrite relabel_same by done.
    rewrite decide_True by (destruct Hl as [-> | ->]; [left|right; left]).
    rewrite Hother; [done|]. intros Hlm.
    destruct (month_is_no_id_var l Hlm). by destruct Hl. }
  repeat (rewrite cell_insert_eq in Hy || rewrite cell_insert_ne in Hy by done).
  repeat (rewrite cell_insert_eq in Hv || rewrite cell_insert_ne in Hv by done).
  repeat (rewrite cell_insert_eq in Hrain || rewrite cell_insert_ne in Hrain by done).
  repeat (rewrite cell_insert_eq in Hsub || rewrite cell_insert_ne in Hsub by done).
  rewrite Hid in Hy, Hv, Hsub by auto. rewrite Hcell in Hrain.
  destruct (to_numeric_float parse_float (cell rec "year")) as [dy Hdy].
  destruct (to_numeric_float parse_float (cell rec m)) as [dm Hdm].
  rewrite Hdy in Hy, Hv. rewrite Hdm in Hrain.
  apply int_of_cell_float in Hv as (q & -> & ->).
  exists rec, m, q, dm. split; [done|]. split; [done|]. split; [done|]. split; [done|].
  split; [by apply isna_VFloat|]. split; [done|].
  repeat (rewrite cell_insert_eq || rewrite cell_insert_ne by done).
  rewrite Hid, Hcell, Hdm by auto.
  apply tidy_row_built.
Qed.

End ClimateFrame.

Lemma cell_singleton l v : cell {[l := v]} l = v.
Proof. unfold cell. by rewrite lookup_singleton_eq. Qed.

Section ClimateTable.

Variable parse_float : string → double.

Lemma climate_frame_columns records source_url df :
  transform_climate_data parse_float records source_url = Ok df →
  columns df = ["subdivision"; "year"; "month"; "rainfall_mm"; "source_url"]%string.
Proof.
  intros H. unfold transform_climate_data in H.
  bind_inv H d0 E0. bind_inv H d1 E1. bind_inv H d2 E2. bind_inv H d3 E3.
  bind_inv H d4 E4. bind_inv H d5 E5. apply Ok_inj in H. subst df.
  rewrite (str_strip_title_columns _ _ _ E5), (astype_int_columns _ _ _ E4),
    (dropna_columns _ _ _ E3), (map_column_columns _ _ _ _ E2).
  apply melt_Ok in E1 as (Hcols & _). unfold assign, has_column. rewrite Hcols.
  rewrite bool_decide_eq_false_2; [done|].
  apply (bool_decide_unpack _). vm_compute. exact I.
Qed.



Lemma climate_row_reads records source_url df i r :
  transform_climate_data parse_float records source_url = Ok df →
  (i, r) ∈ rows df →
  ∃ row, ClimateRainfall.read r = Some row ∧
         ClimateRainfall.source_url row = Some source_url ∧
         is_Some (ClimateRainfall.rainfall_mm row).
Proof.
  intros H Hin.
  destruct (climate_row_origin parse_float records source_url df i r H Hin)
    as (rec & m & q & d & _ & _ & _ & _ & Hd & _ & ->).
  unfold ClimateRainfall.read, tidy_row.
  repeat (rewrite cell_insert_eq || rewrite cell_insert_ne by done).
  rewrite cell_singleton.
  destruct (as_varchar_strip_title (cell rec "subdivision")) as [sub ->].
  cbn [mbind option_bind as_bigint as_varchar].
  destruct d; cbn [as_double mbind option_bind]; [done|eauto..].
Qed.

Lemma climate_table_of_frame records source_url df (con : gmap string Table) :
  transform_climate_data parse_float records source_url = Ok df →
  con !! "climate_rainfall"%string = Some (select_all df) →
  ∃ table,
    ClimateRainfall.scan con = Done table ∧
    Forall (λ row, ClimateRainfall.source_url row = Some source_url ∧
                   is_Some (ClimateRainfall.rainfall_mm row)) table.
Proof.
  intros Hdf Hcon. unfold ClimateRainfall.scan. rewrite Hcon.
  unfold has_columns, select_all. cbn [table_columns table_rows].
  rewrite (climate_frame_columns _ _ _ Hdf).
  destruct (mapM_Some_Forall ClimateRainfall.read
              (λ row, ClimateRainfall.source_url row = Some source_url ∧
                      is_Some (ClimateRainfall.rainfall_mm row))
              (rows df).*2) as (table & -> & Hurl).
  - intros r ([i r'] & -> & Hin)%list_elem_of_fmap.
    by apply (climate_row_reads records source_url df i).
  - replace (forallb _ _) with true by (vm_compute; reflexivity). eauto.
Qed.

Lemma agri_table_of_frame records source_url df (con : gmap string Table) :
  transform_agri_data parse_float records source_url = Ok df →
  con !! "agriculture_production"%string = Some (select_all df) →
  ∃ table,
    AgricultureProduction.scan con = Done table ∧
    Forall (λ row, AgricultureProduction.source_url row = Some source_url) table.
Proof.
  intros Hdf Hcon. unfold AgricultureProduction.scan. rewrite Hcon.
  unfold has_columns, select_all. cbn [table_columns table_rows].
  rewrite (agri_frame_columns _ _ _ _ Hdf).
  destruct (mapM_Some_Forall AgricultureProduction.read
              (λ row, AgricultureProduction.source_url row = Some source_url)
              (rows df).*2) as (table & -> & Hurl).
  - intros r ([i r'] & -> & Hin)%list_elem_of_fmap.
    by apply (agri_row_reads parse_float records source_url df i).
  - replace (forallb _ _) with true by (vm_compute; reflexivity). eauto.
Qed.

(** Once loaded, the tidy climate frame is a table that the tools can scan,
    with one stored row per row of the frame; every stored row has a rainfall
    value and cites the source URL. *)
Theorem loaded_climate_frame_is_cited records source_url df (con : gmap string Table) :
  transform_climate_data parse_float records source_url = Ok df →
  con !! "climate_rainfall"%string = Some (select_all df) →
  ∃ table,
    ClimateRainfall.scan con = Done table ∧
    length table = length (rows df) ∧
    Forall (λ row, ClimateRainfall.source_url row = Some source_url ∧
                   is_Some (ClimateRainfall.rainfall_mm row)) table.
Proof.
  intros Hdf Hcon. unfold ClimateRainfall.scan. rewrite Hcon.
  unfold has_columns, select_all. cbn [table_columns table_rows].
  rewrite (climate_frame_columns _ _ _ Hdf).
  destruct (mapM_Some_Forall ClimateRainfall.read
              (λ row, ClimateRainfall.source_url row = Some source_url ∧
                      is_Some (ClimateRainfall.rainfall_mm row))
              (rows df).*2) as (table & Hread & Hurl).
  - intros r ([i r'] & -> & Hin)%list_elem_of_fmap.
    by apply (climate_row_reads records source_url df i).
  - replace (forallb _ _) with true by (vm_compute; reflexivity).
    rewrite Hread. exists table. split; [done|]. split; [|done].
    apply length_mapM in Hread. by rewrite <- Hread, length_fmap.
Qed.

End ClimateTable.

Lemma gappy_year_frame_Ok :
  transform_climate_data parse_decimal [gappy_year_record] climate_url = Ok gappy_year_frame.
Proof. vm_compute. reflexivity. Qed.


Lemma loaded_climate_frame_is_cited_witness :
  ∃ table,
    ClimateRainfall.scan {[ "climate_rainfall"%string := select_all gappy_year_frame ]}
      = Done table ∧
    length table = length (rows gappy_year_frame) ∧
    Forall (λ row, ClimateRainfall.source_url row = Some climate_url ∧
                   is_Some (ClimateRainfall.rainfall_mm row)) table.
Proof.
  apply (loaded_climate_frame_is_cited parse_decimal [gappy_year_record] climate_url
           gappy_year_frame).
  - exact gappy_year_frame_Ok.
  - apply lookup_singleton_eq.
Defined.

Lemma lookup_blocks_2 {A B C} (h : A → B → C) (keys : list A) (l : list B) k j v y :
  keys !! k = Some v → l !! j = Some y →
  (keys ≫= (λ v, h v <$> l)) !! (k * length l + j)%nat = Some (h v y).
Proof.
  revert k. induction keys as [|v' keys IH]; intros k Hk Hj; [done|].
  rewrite bind_cons. destruct k as [|k]; simpl in Hk.
  - injection Hk as ->. change (0 * length l + j)%nat with j.
    rewrite lookup_app_l by (rewrite length_fmap; by eapply lookup_lt_Some).
    by rewrite list_lookup_fmap, Hj.
  - rewrite lookup_app_r by (rewrite length_fmap; lia). rewrite length_fmap.
    replace (S k * length l + j - length l)%nat with (k * length l + j)%nat by lia.
    by apply IH.
Qed.

Lemma astype_int_rows_elem_2 label l rs i r0 :
  astype_int_rows label l = Ok rs →
  (i, r0) ∈ l →
  ∃ v, int_of_cell (cell r0 label) = Ok v ∧ (i, <[label := v]> r0) ∈ rs.
Proof.
  revert rs. induction l as [|[j r1] l IH]; intros rs H Hin; cbn [astype_int_rows] in H.
  - by apply elem_of_nil in Hin.
  - bind_as H v1 Ev. bind_as H rest Erest. injection H as <-.
    apply elem_of_cons in Hin as [[= -> ->]|Hin].
    + exists v1. split; [done|left].
    + destruct (IH _ eq_refl Hin) as (v & ? & ?). exists v. split; [done|by right].
Qed.

Section ClimateRowsKept.

Variable parse_float : string → double.

(** Which rows the tidy frame has: the month of a record leaves a row, at the
    index of the month's block and the record's place in it, exactly when the
    record's year and its value of that month read as numbers and its
    subdivision is present. *)
Theorem month_of_a_record_is_kept_iff_usable records source_url df j rec k m :
  transform_climate_data parse_float records source_url = Ok df →
  records !! j = Some rec →
  month_columns_raw !! k = Some m →
  (∃ r, (k * length records + j, r)%nat ∈ rows df) ↔
  isna (to_numeric parse_float (cell rec "year")) = false ∧
  isna (to_numeric parse_float (cell rec m)) = false ∧
  isna (cell rec "subdivision") = false.
Proof.
  intros H Hrec Hm.
  assert (j < length records)%nat as Hj by (by eapply lookup_lt_Some).
  split.
  - intros [r Hin].
    destruct (climate_row_origin parse_float records source_url df _ r H Hin)
      as (rec' & m' & q & d & Hrec' & Hm' & Hy & Hd & Hnan & Hsub & _).
    rewrite (Nat.add_comm (k * length records) j) in Hrec', Hm'.
    rewrite Nat.Div0.mod_add, Nat.mod_small in Hrec' by done.
    rewrite Nat.div_add, Nat.div_small, Nat.add_0_l in Hm' by lia.
    rewrite Hrec in Hrec'. injection Hrec' as <-.
    rewrite Hm in Hm'. injection Hm' as <-.
    rewrite Hy, Hd. split; [done|]. split; [by apply isna_VFloat|done].
  - intros (Hy & Hd & Hsub). unfold transform_climate_data in H.
    bind_inv H d0 E0. rewrite rename_climate in E0. apply Ok_inj in E0. subst d0.
    bind_inv H d1 E1. bind_inv H d2 E2. bind_inv H d3 E3. bind_inv H d4 E4.
    bind_inv H d5 E5. apply Ok_inj in H. subst df.
    destruct (coerce_months_spec parse_float (pd_DataFrame records))
      as (g & Hc & Hr & Hother & Hmonth).
    apply melt_Ok in E1 as (_ & Hcols & _ & E1).
    apply map_column_Ok in E2. apply dropna_Ok in E3. apply astype_int_Ok in E4.
    apply str_strip_title_Ok in E5.
    assert (m ∈ month_columns_raw) as Hmonth_in by (eapply list_elem_of_lookup_2, Hm).
    destruct (month_is_no_id_var m Hmonth_in) as [Hm1 Hm2].
    assert (cell (g rec) m = to_numeric parse_float (cell rec m)) as Hcell.
    { apply Hmonth; [done|]. rewrite <- Hc. apply Hcols, elem_of_app. by right. }
    assert (∀ l, l = "subdivision"%string ∨ l = "year"%string →
              cell (relabel id ["subdivision"; "year"]%string (g rec)) l = cell rec l) as Hid.
    { intros l Hl. unfold cell. rewrite relabel_same by done.
      rewrite decide_True by (destruct Hl as [-> | ->]; [left|right; left]).
      rewrite Hother; [done|]. intros Hlm.
      destruct (month_is_no_id_var l Hlm). by destruct Hl. }
    (* the row of the reshaped frame *)
    set (r1 := <["rainfall_mm"%string := cell (g rec) m]>
                 (<["month"%string := VStr m]>
                    (relabel id ["subdivision"; "year"]%string (g rec)))).
    assert ((k * length records + j, r1)%nat ∈ rows d1) as Hin1.
    { rewrite E1. apply elem_of_lookup_imap. exists (k * length records + j)%nat, r1.
      split; [done|].
      replace (length records) with (length (rows (coerce_months parse_float
                                                      (pd_DataFrame records)))).
      2:{ rewrite Hr. unfold map_rows. rewrite length_fmap. cbn [pd_DataFrame rows].
          by rewrite length_imap. }
      apply (lookup_blocks_2
               (λ v ir, <["rainfall_mm"%string := cell ir.2 v]>
                          (<["month"%string := VStr v]>
                             (relabel id ["subdivision"; "year"]%string ir.2)))
               month_columns_raw _ k j m (j, g rec)); [done|].
      rewrite Hr. unfold map_rows. rewrite list_lookup_fmap. cbn [pd_DataFrame rows].
      by rewrite list_lookup_imap, Hrec. }
    (* source_url, the numeric year *)
    set (r2 := <["year"%string := to_numeric parse_float
                                   (cell (<["source_url"%string := VStr source_url]> r1) "year")]>
                 (<["source_url"%string := VStr source_url]> r1)).
    assert ((k * length records + j, r2)%nat ∈ rows d2) as Hin2.
    { rewrite E2. apply elem_of_map_rows. eexists. split; [|reflexivity].
      unfold assign. cbn [rows]. apply elem_of_map_rows. eauto. }
    (* dropna keeps it *)
    assert ((k * length records + j, r2)%nat ∈ rows d3) as Hin3.
    { rewrite E3. apply list_elem_of_filter. split; [|done].
      cbn [complete forallb snd]. unfold r2, r1.
      repeat (rewrite cell_insert_eq || rewrite cell_insert_ne by done).
      rewrite !Hid by auto. rewrite Hcell, Hy, Hd, Hsub. done. }
    destruct (astype_int_rows_elem_2 _ _ _ _ _ E4 Hin3) as (v & _ & Hin4).
    eexists. rewrite E5. apply elem_of_map_rows. eauto.
Qed.

End ClimateRowsKept.

Lemma month_of_a_record_is_kept_iff_usable_witness :
  (∃ r, (0 * length [gappy_year_record] + 0, r)%nat ∈ rows gappy_year_frame) ↔
  isna (to_numeric parse_decimal (cell gappy_year_record "year")) = false ∧
  isna (to_numeric parse_decimal (cell gappy_year_record "jan")) = false ∧
  isna (cell gappy_year_record "subdivision") = false.
Proof.
  apply (month_of_a_record_is_kept_iff_usable parse_decimal [gappy_year_record] climate_url
           gappy_year_frame 0 gappy_year_record 0 "jan").
  - exact gappy_year_frame_Ok.
  - reflexivity.
  - reflexivity.
Defined.

(* ===================================================================== *)
(** * transform_agri_data: the rows kept and their text columns *)
(* ===================================================================== *)

Section AgriRows.

Variable parse_float : string → double.

(** The steps of the transform, one fact per step. *)
Lemma agri_steps records source_url df :
  transform_agri_data parse_float records source_url = Ok df →
  ∃ d5 d6,
    rows d5 =
      filter (λ ir, complete ["year"; "production_tonnes"; "state"; "district"; "crop"]%string
                      ir.2)
        (map_rows
           (λ rec,
              let p := <["source_url"%string := VStr source_url]> (agri_projected records rec) in
              let y := <["year"%string := to_numeric parse_float (cell p "year")]> p in
              <["production_tonnes"%string :=
                  to_numeric parse_float (cell y "production_tonnes")]> y)
           (pd_DataFrame records)) ∧
    astype_int_rows "year" (rows d5) = Ok (rows d6) ∧
    rows df =
      map_rows
        (λ r6,
           let r7 := <["state"%string := strip_title (cell r6 "state")]> r6 in
           let r8 := <["district"%string := strip_title (cell r7 "district")]> r7 in
           <["crop"%string := strip_title (cell r8 "crop")]> r8)
        d6.
Proof.
  intros H. unfold transform_agri_data in H.
  bind_inv H d1 E1. bind_inv H d2 E2. bind_inv H d3 E3. bind_inv H d4 E4.
  bind_inv H d5 E5. bind_inv H d6 E6. bind_inv H d7 E7. bind_inv H d8 E8.
  bind_inv H d9 E9. apply Ok_inj in H. subst df.
  apply rename_Ok in E1. apply select_Ok in E2. apply map_column_Ok in E3.
  apply map_column_Ok in E4. apply dropna_Ok in E5. apply astype_int_Ok in E6.
  apply str_strip_title_Ok in E7. apply str_strip_title_Ok in E8.
  apply str_strip_title_Ok in E9.
  exists d5, d6. split; [|split; [done|]].
  - rewrite E5, E4. unfold map_rows at 1. rewrite E3. unfold map_rows at 1.
    unfold assign. cbn [rows]. unfold map_rows at 1. rewrite E2. unfold map_rows at 1.
    rewrite E1. unfold map_rows. rewrite <- !list_fmap_compose. done.
  - rewrite E9. unfold map_rows at 1. rewrite E8. unfold map_rows at 1. rewrite E7.
    unfold map_rows. rewrite <- !list_fmap_compose. done.
Qed.




(** Which rows the cleaned frame has: a record leaves a row, under its own
    index, exactly when its year and its production read as numbers and its
    state, district and crop are present. *)
Theorem agri_record_is_kept_iff_usable records source_url df j rec :
  transform_agri_data parse_float records source_url = Ok df →
  records !! j = Some rec →
  (∃ r, (j, r) ∈ rows df) ↔
  isna (to_numeric parse_float (cell (agri_projected records rec) "year")) = false ∧
  isna (to_numeric parse_float (cell (agri_projected records rec) "production_tonnes")) = false ∧
  isna (cell (agri_projected records rec) "state") = false ∧
  isna (cell (agri_projected records rec) "district") = false ∧
  isna (cell (agri_projected records rec) "crop") = false.
Proof.
  intros H Hrec.
  pose proof H as (d5 & d6 & E5 & E6 & E9)%agri_steps.
  assert (∀ r5, (j, r5) ∈ rows d5 ↔
            r5 = (let p := <["source_url"%string := VStr source_url]>
                             (agri_projected records rec) in
                  let y := <["year"%string := to_numeric parse_float (cell p "year")]> p in
                  <["production_tonnes"%string :=
                      to_numeric parse_float (cell y "production_tonnes")]> y) ∧
            complete ["year"; "production_tonnes"; "state"; "district"; "crop"]%string r5
              = true) as Hkept.
  { intros r5. rewrite E5, list_elem_of_filter, elem_of_map_rows. cbn [snd]. split.
    - intros [Hc (rec' & Hin & ->)]. apply elem_of_pd_DataFrame in Hin.
      rewrite Hrec in Hin. injection Hin as <-. split; [done|]. by apply Is_true_true.
    - intros [-> Hc]. split; [by apply Is_true_true|]. exists rec. split; [|done].
      by apply elem_of_pd_DataFrame. }
  assert (∀ r5,
            r5 = (let p := <["source_url"%string := VStr source_url]>
                             (agri_projected records rec) in
                  let y := <["year"%string := to_numeric parse_float (cell p "year")]> p in
                  <["production_tonnes"%string :=
                      to_numeric parse_float (cell y "production_tonnes")]> y) →
            complete ["year"; "production_tonnes"; "state"; "district"; "crop"]%string r5 =
            negb (isna (to_numeric parse_float (cell (agri_projected records rec) "year")))
            && (negb (isna (to_numeric parse_float
                              (cell (agri_projected records rec) "production_tonnes")))
            && (negb (isna (cell (agri_projected records rec) "state"))
            && (negb (isna (cell (agri_projected records rec) "district"))
            && (negb (isna (cell (agri_projected records rec) "crop")) && true))))) as Hcomplete.
  { intros r5 ->. cbn zeta. cbn [complete forallb].
    by repeat (rewrite cell_insert_eq || rewrite cell_insert_ne by done). }
  split.
  - intros [r Hin]. rewrite E9 in Hin. apply elem_of_map_rows in Hin as (r6 & Hin & ->).
    destruct (astype_int_rows_elem _ _ _ _ _ E6 Hin) as (r5 & v & Hin5 & _ & ->).
    apply Hkept in Hin5 as [Hr5 Hc]. rewrite (Hcomplete r5 Hr5) in Hc.
    repeat (apply andb_true_iff in Hc as [?%negb_true_iff Hc]). done.
  - intros (Hy & Hp & Hst & Hdi & Hcr).
    assert (∃ r5, (j, r5) ∈ rows d5) as [r5 Hin5].
    { eexists. apply Hkept. split; [reflexivity|]. rewrite (Hcomplete _ eq_refl).
      by rewrite Hy, Hp, Hst, Hdi, Hcr. }
    destruct (astype_int_rows_elem_2 _ _ _ _ _ E6 Hin5) as (v & _ & Hin6).
    eexists. rewrite E9. apply elem_of_map_rows. eauto.
Qed.

End AgriRows.


Lemma agri_record_is_kept_iff_usable_witness :
  (∃ r, (5%nat, r) ∈ rows sample_agri_frame) ↔
  isna (to_numeric parse_decimal
          (cell (agri_projected sample_agri_records
                   (agri_record "Punjab" "PATIALA" "2010" "Bajra" "NA")) "year")) = false ∧
  isna (to_numeric parse_decimal
          (cell (agri_projected sample_agri_records
                   (agri_record "Punjab" "PATIALA" "2010" "Bajra" "NA")) "production_tonnes"))
    = false ∧
  isna (cell (agri_projected sample_agri_records
                (agri_record "Punjab" "PATIALA" "2010" "Bajra" "NA")) "state") = false ∧
  isna (cell (agri_projected sample_agri_records
                (agri_record "Punjab" "PATIALA" "2010" "Bajra" "NA")) "district") = false ∧
  isna (cell (agri_projected sample_agri_records
                (agri_record "Punjab" "PATIALA" "2010" "Bajra" "NA")) "crop") = false.
Proof.
  apply (agri_record_is_kept_iff_usable parse_decimal sample_agri_records agri_url
           sample_agri_frame 5 (agri_record "Punjab" "PATIALA" "2010" "Bajra" "NA")).
  - exact sample_agri_frame_Ok.
  - reflexivity.
Defined.

(* ===================================================================== *)
(** * load_to_duckdb: the tables it leaves alone *)
(* ===================================================================== *)

(** A load writes the tables it is given frames for and no other; loading
    the same frames a second time changes nothing. *)
Theorem load_is_local_and_idempotent (dataframes : gmap string DataFrame)
    (con : gmap string Table) :
  (∀ name, dataframes !! name = None → load_to_duckdb dataframes con !! name = con !! name) ∧
  (∀ name df, dataframes !! name = Some df →
              load_to_duckdb dataframes con !! name = Some (select_all df)) ∧
  load_to_duckdb dataframes (load_to_duckdb dataframes con) = load_to_duckdb dataframes con.
Proof.
  split; [|split].
  - intros name Hname. by rewrite load_to_duckdb_lookup, Hname.
  - intros name df Hname. by rewrite load_to_duckdb_lookup, Hname.
  - apply map_eq. intros name. rewrite !load_to_duckdb_lookup.
    by destruct (dataframes !! name).
Qed.

(* ===================================================================== *)
(** * The fields a transform cannot do without *)
(* ===================================================================== *)

Lemma rename_columns mapping df df' :
  rename mapping df = Ok df' → columns df' = rename_label mapping <$> columns df.
Proof. unfold rename. case_bool_decide; [|done]. by intros [= <-]. Qed.

Lemma agri_names_origin raw new l :
  (raw, new) ∈ agri_names → rename_label agri_names l = new → l = raw ∨ l = new.
Proof.
  intros Hin. unfold agri_names in Hin.
  repeat (apply elem_of_cons in Hin as [[= -> ->]|Hin];
          [cbn [rename_label agri_names];
           repeat match goal with
                  | |- context [String.eqb ?a l] =>
                      destruct (String.eqb_spec a l) as [<-|_]; [first [by intros [=] | by auto]|]
                  end; by auto|]).
  by apply elem_of_nil in Hin.
Qed.

Section RequiredFields.

Variable parse_float : string → double.

Lemma agri_field_is_carried records source_url df raw new :
  transform_agri_data parse_float records source_url = Ok df →
  (raw, new) ∈ agri_names →
  ∃ rec, rec ∈ records ∧ (is_Some (rec !! raw) ∨ is_Some (rec !! new)).
Proof.
  intros H Hin. unfold transform_agri_data in H.
  bind_inv H d1 E1. bind_inv H d2 E2. clear H.
  apply rename_columns in E1. unfold select in E2. bind_inv E2 u E. clear E2.
  destruct u.
  assert (new ∈ ["state"; "district"; "crop"; "year"; "season"; "area_hectare";
                 "production_tonnes"]%string) as Hlabel.
  { pose proof Hin as Hin'. unfold agri_names in Hin'.
    repeat (apply elem_of_cons in Hin' as [[= -> ->]|Hin'];
            [apply (bool_decide_unpack _); vm_compute; exact I|]).
    by apply elem_of_nil in Hin'. }
  pose proof (proj1 (require_columns_Ok _ _) E new Hlabel) as Hnew.
  rewrite E1 in Hnew. apply list_elem_of_fmap in Hnew as (l & Hl & Hcol).
  symmetry in Hl. destruct (agri_names_origin raw new l Hin Hl) as [-> | ->];
    apply columns_pd_DataFrame in Hcol as (rec & Hrec & Hsome); eauto.
Qed.

(** The agriculture transform returns a frame only if each of the seven
    fields is carried by some record, under its raw name or under the name
    it is renamed to; so it returns none for an empty list of records. *)
Theorem agri_frame_needs_every_field records source_url df :
  transform_agri_data parse_float records source_url = Ok df →
  Forall (λ names, ∃ rec, rec ∈ records ∧
                          (is_Some (rec !! names.1) ∨ is_Some (rec !! names.2)))
    agri_names ∧
  records ≠ [].
Proof.
  intros H.
  assert (Forall (λ names, ∃ rec, rec ∈ records ∧
                    (is_Some (rec !! names.1) ∨ is_Some (rec !! names.2))) agri_names)
    as Hall.
  { apply Forall_forall. intros [raw new] Hin.
    by apply (agri_field_is_carried records source_url df). }
  split; [done|]. intros ->.
  apply Forall_cons in Hall as [(rec & Hrec & _) _]. by apply elem_of_nil in Hrec.
Qed.

(** The climate transform returns a frame only if the subdivision, the year
    and each of the twelve months is carried by some record; so it returns
    none for an empty list of records. *)
Theorem climate_frame_needs_every_field records source_url df :
  transform_climate_data parse_float records source_url = Ok df →
  Forall (λ l, ∃ rec, rec ∈ records ∧ is_Some (rec !! l))
    ("subdivision" :: "year" :: month_columns_raw)%string ∧
  records ≠ [].
Proof.
  intros H.
  assert (Forall (λ l, ∃ rec, rec ∈ records ∧ is_Some (rec !! l))
            ("subdivision" :: "year" :: month_columns_raw)%string) as Hall.
  { apply Forall_forall. intros l Hl. unfold transform_climate_data in H.
    bind_inv H d0 E0. rewrite rename_climate in E0. apply Ok_inj in E0. subst d0.
    bind_inv H d1 E1. clear H.
    apply melt_Ok in E1 as (_ & Hcols & _).
    destruct (coerce_months_spec parse_float (pd_DataFrame records)) as (g & Hc & _).
    apply columns_pd_DataFrame. rewrite <- Hc. by apply Hcols. }
  split; [done|]. intros ->.
  apply Forall_cons in Hall as [(rec & Hrec & _) _]. by apply elem_of_nil in Hrec.
Qed.

End RequiredFields.

Lemma agri_frame_needs_every_field_witness :
  Forall (λ names, ∃ rec, rec ∈ sample_agri_records ∧
                          (is_Some (rec !! names.1) ∨ is_Some (rec !! names.2)))
    agri_names ∧
  sample_agri_records ≠ [].
Proof.
  apply (agri_frame_needs_every_field parse_decimal sample_agri_records agri_url
           sample_agri_frame).
  exact sample_agri_frame_Ok.
Defined.

Lemma climate_frame_needs_every_field_witness :
  Forall (λ l, ∃ rec, rec ∈ [gappy_year_record] ∧ is_Some (rec !! l))
    ("subdivision" :: "year" :: month_columns_raw)%string ∧
  [gappy_year_record] ≠ [].
Proof.
  apply (climate_frame_needs_every_field parse_decimal [gappy_year_record] climate_url
           gappy_year_frame).
  exact gappy_year_frame_Ok.
Defined.

(** Without records there is no column to select: both transforms raise. *)
Example transforms_raise_without_records parse_float source_url :
  transform_agri_data parse_float [] source_url = Raise (KeyError "state") ∧
  transform_climate_data parse_float [] source_url = Raise (KeyError "subdivision").
Proof. split; reflexivity. Qed.

(* ===================================================================== *)
(** * fetch_data *)
(* ===================================================================== *)

Lemma contains_getitem data found :
  contains "records" data = Ok found →
  found = true →
  (∃ members v, data = JObject members ∧ member "records" members = Some v ∧
                getitem data "records" = Ok v)
  ∨ ((∀ members, data ≠ JObject members) ∧ getitem data "records" = Raise TypeError).
Proof.
  destruct data as [[|s|z|d]|b|items|members]; cbn [contains getitem]; try done.
  - intros _ _. right. split; [by intros ?|done].
  - intros _ _. right. split; [by intros ?|done].
  - intros [= <-] [v Hv]%bool_decide_eq_true. left. exists members, v. by rewrite Hv.
Qed.

Section FetchFacts.

Variable requests_get : string → http_outcome.
Variable API_KEY : string.

(** fetch_data returns a value exactly when the response has a status
    outside 400..599 and a JSON object as body whose records member is
    something with a length; what it returns is that member. *)
Theorem fetch_data_returns_the_records_member resource_id limit records :
  fetch_data requests_get API_KEY resource_id limit = Ok (Some records) ↔
  ∃ status_code members,
    requests_get (fetch_url API_KEY resource_id limit)
      = Response status_code (Some (JObject members)) ∧
    ¬ (400 ≤ status_code < 600) ∧
    member "records" members = Some records ∧
    has_len records = true.
Proof.
  unfold fetch_data.
  destruct (requests_get _) as [|status_code body].
  { split; [done|]. by intros (? & ? & ? & _). }
  destruct ((400 <=? status_code) && (status_code <? 600)) eqn:Hstatus.
  { split; [done|]. intros (s & ms & [= -> _] & Hs & _). exfalso. apply Hs.
    apply andb_true_iff in Hstatus as [?%Z.leb_le ?%Z.ltb_lt]. lia. }
  assert (¬ (400 ≤ status_code < 600)) as Hok.
  { intros [H1%Z.leb_le H2%Z.ltb_lt]. by rewrite H1, H2 in Hstatus. }
  destruct body as [data|]; [|split; [done|]; by intros (? & ? & [=] & _)].
  destruct (contains "records" data) as [found|e] eqn:Hfound; cbn [mbind result_bind].
  2:{ split; [done|]. intros (s & ms & [= _ ->] & _). done. }
  destruct found; cbn [negb].
  2:{ split; [done|]. intros (s & ms & [= _ ->] & _ & Hm & _).
      cbn [contains] in Hfound. injection Hfound as Hfound.
      apply bool_decide_eq_false in Hfound. exfalso. apply Hfound. by rewrite Hm. }
  destruct (contains_getitem data true Hfound eq_refl)
    as [(members & v & -> & Hv & ->)|[Hno ->]]; cbn [mbind result_bind].
  - destruct (has_len v) eqn:Hlen.
    + split.
      * intros [= <-]. eauto 10.
      * intros (s & ms & [= _ <-] & _ & Hm & _). congruence.
    + split; [done|]. intros (s & ms & [= _ <-] & _ & Hm & Hl). congruence.
  - split; [done|]. intros (s & ms & [= _ ->] & _). by destruct (Hno ms).
Qed.

(** fetch_data catches the failures of the request, not those of reading
    the body: it raises, and only TypeError, when the status is outside
    400..599 and the body is JSON but no object with a sized records member. *)
Theorem fetch_data_raises_only_on_a_misshaped_body resource_id limit e :
  fetch_data requests_get API_KEY resource_id limit = Raise e →
  e = TypeError ∧
  ∃ status_code data,
    requests_get (fetch_url API_KEY resource_id limit) = Response status_code (Some data) ∧
    ¬ (400 ≤ status_code < 600) ∧
    match data with
    | JObject members => ∃ records, member "records" members = Some records ∧
                                    has_len records = false
    | _ => True
    end.
Proof.
  unfold fetch_data.
  destruct (requests_get _) as [|status_code body]; [done|].
  destruct ((400 <=? status_code) && (status_code <? 600)) eqn:Hstatus; [done|].
  assert (¬ (400 ≤ status_code < 600)) as Hok.
  { intros [H1%Z.leb_le H2%Z.ltb_lt]. by rewrite H1, H2 in Hstatus. }
  destruct body as [data|]; [|done].
  destruct (contains "records" data) as [found|e'] eqn:Hfound; cbn [mbind result_bind].
  - destruct found; cbn [negb]; [|done].
    destruct (contains_getitem data true Hfound eq_refl)
      as [(members & v & -> & Hv & ->)|[Hno ->]]; cbn [mbind result_bind].
    + destruct (has_len v) eqn:Hlen; [done|]. intros [= <-]. split; [done|].
      exists status_code, (JObject members). eauto.
    + intros [= <-]. split; [done|]. exists status_code, data.
      split; [done|]. split; [done|]. destruct data; try done. by destruct (Hno members).
  - intros [= ->].
    destruct data as [[|s|z|d]|b|items|members]; cbn [contains] in Hfound;
      try discriminate Hfound; injection Hfound as <-;
      (split; [done|]); eexists _, _; (split; [done|]); by split.
Qed.

End FetchFacts.

Lemma fetch_data_raises_only_on_a_misshaped_body_witness :
  TypeError = TypeError ∧
  ∃ status_code data,
    (λ _ : string, Response 200 (Some (JArray [JScalar (VStr "records")])))
      (fetch_url "key" "35be999b-0208-4354-b557-f6ca9a5355de" 50000)
      = Response status_code (Some data) ∧
    ¬ (400 ≤ status_code < 600) ∧
    match data with
    | JObject members => ∃ records, member "records" members = Some records ∧
                                    has_len records = false
    | _ => True
    end.
Proof.
  apply (fetch_data_raises_only_on_a_misshaped_body
           (λ _, Response 200 (Some (JArray [JScalar (VStr "records")]))) "key"
           "35be999b-0208-4354-b557-f6ca9a5355de" 50000 TypeError).
  reflexivity.
Defined.

(* ===================================================================== *)
(** * The pipeline of et1.py, and the tools on the database it leaves *)
(* ===================================================================== *)

Lemma any_value_all {A} (cells : list (option A)) a :
  cells ≠ [] → Forall (λ c, c = Some a) cells → any_value cells = Some a.
Proof. intros Hne Hall. destruct Hall as [|c cells -> _]; done. Qed.

Lemma sql_sum_is_Some cells :
  cells ≠ [] → Forall is_Some cells → is_Some (sql_sum cells).
Proof.
  intros Hne Hall. destruct Hall as [|c cells [d ->] _]; [done|].
  unfold sql_sum. cbn [omap id]. eauto.
Qed.

Lemma sql_avg_is_Some cells :
  cells ≠ [] → Forall is_Some cells → is_Some (sql_avg cells).
Proof.
  intros Hne Hall. destruct Hall as [|c cells [d ->] _]; [done|].
  unfold sql_avg. cbn [omap id]. eauto.
Qed.

Lemma pair_inv {A B} (a a' : A) (b b' : B) : (a, b) = (a', b') → a = a' ∧ b = b'.
Proof. intros H. split; [exact (f_equal fst H)|exact (f_equal snd H)]. Qed.

Lemma etl_main_complete parse_float agri_records climate_records con con' :
  etl_main parse_float agri_records climate_records con = (EtlComplete, con') →
  ∃ agri climate df_agri df_climate,
    agri_records = Some agri ∧ agri ≠ [] ∧
    climate_records = Some climate ∧ climate ≠ [] ∧
    transform_agri_data parse_float agri agri_url = Ok df_agri ∧
    transform_climate_data parse_float climate climate_url = Ok df_climate ∧
    con' = load_to_duckdb {[ "agriculture_production"%string := df_agri;
                             "climate_rainfall"%string := df_climate ]} con.
Proof.
  unfold etl_main.
  destruct agri_records as [[|a agri]|];
    try (destruct climate_records as [[|? ?]|]; by intros [[=] _]%pair_inv).
  destruct climate_records as [[|c climate]|]; try (by intros [[=] _]%pair_inv).
  destruct (transform_agri_data _ _ _) as [df_agri|] eqn:Ha; [|by intros [[=] _]%pair_inv].
  destruct (transform_climate_data _ _ _) as [df_climate|] eqn:Hc;
    [|by intros [[=] _]%pair_inv].
  intros [_ <-]%pair_inv. exists (a :: agri), (c :: climate), df_agri, df_climate. done.
Qed.



Lemma group_of_year {A} (year : A → Z) (matching : list A) y :
  y ∈ remove_dups (year <$> matching) →
  filter (λ r, year r = y) matching ≠ [] ∧
  ∀ r, r ∈ filter (λ r, year r = y) matching → r ∈ matching.
Proof.
  intros (r & -> & Hr)%elem_of_remove_dups%list_elem_of_fmap. split.
  - intros Hnil. assert (r ∈ filter (λ r', year r' = year r) matching) as Hin
      by (by apply list_elem_of_filter).
    rewrite Hnil in Hin. by apply elem_of_nil in Hin.
  - by intros r' [_ ?]%list_elem_of_filter.
Qed.

Lemma yearly_totals_cited matching url :
  Forall (λ row, ClimateRainfall.source_url row = Some url ∧
                 is_Some (ClimateRainfall.rainfall_mm row)) matching →
  Forall (λ t, AverageRainfall.total_source_url t = Some url ∧
               is_Some (AverageRainfall.total_annual_rainfall t))
    (AverageRainfall.YearlyTotals matching).
Proof.
  intros Hall. rewrite Forall_forall in Hall.
  unfold AverageRainfall.YearlyTotals. apply Forall_fmap, Forall_forall. intros y Hy.
  destruct (group_of_year ClimateRainfall.year matching y Hy) as [Hne Hsub].
  cbn [AverageRainfall.total_source_url AverageRainfall.total_annual_rainfall].
  unfold AverageRainfall.group. split.
  - apply any_value_all; [by intros ?%fmap_nil_inv|].
    apply Forall_fmap, Forall_forall. intros r Hr. by apply Hall, Hsub.
  - apply sql_sum_is_Some; [by intros ?%fmap_nil_inv|].
    apply Forall_fmap, Forall_forall. intros r Hr. by apply Hall, Hsub.
Qed.

Lemma crop_trend_cited matching url y :
  Forall (λ row, AgricultureProduction.source_url row = Some url) matching →
  y ∈ remove_dups (AgricultureProduction.year <$> matching) →
  CropTrend.source_url (CropTrend.project matching y) = Some url.
Proof.
  intros Hall Hy. rewrite Forall_forall in Hall.
  destruct (group_of_year AgricultureProduction.year matching y Hy) as [Hne Hsub].
  cbn [CropTrend.project CropTrend.source_url]. unfold CropTrend.group.
  apply any_value_all; [by intros ?%fmap_nil_inv|].
  apply Forall_fmap, Forall_forall. intros r Hr. by apply Hall, Hsub.
Qed.

Lemma Forall_filter_keep {A} (P : A → Prop) (Q : A → Prop) `{∀ x, Decision (Q x)}
    (l : list A) :
  Forall P l → Forall P (filter Q l).
Proof.
  rewrite !Forall_forall. intros Hall x [_ Hx]%list_elem_of_filter. by apply Hall.
Qed.

(** After a run of the pipeline that completed, every answer of the three
    tools cites the data set it was computed from: each top-crop record and
    each row of the crop series carries the agriculture URL, each row of the
    rainfall series carries the climate URL and a total, and the average
    record carries the climate URL exactly when it carries an average. *)
Theorem completed_pipeline_makes_the_tools_cite
    parse_float agri_records climate_records con con' :
  etl_main parse_float agri_records climate_records con = (EtlComplete, con') →
  (∀ state year top_m rec,
     sql_literal_safe state = true →
     rec ∈ records_of (get_top_crops_by_production con' state year top_m) →
     TopCrops.source_url rec = Some agri_url) ∧
  (∀ subdivision start_year end_year,
     sql_literal_safe subdivision = true →
     ∃ rec,
       get_average_annual_rainfall con' subdivision start_year end_year = Json [rec] ∧
       match AverageRainfall.average_annual_rainfall rec with
       | Some _ => AverageRainfall.source_url rec = Some climate_url
       | None => AverageRainfall.source_url rec = None
       end) ∧
  (∀ crop_name state subdivision start_year end_year,
     sql_literal_safe crop_name = true →
     sql_literal_safe state = true →
     sql_literal_safe subdivision = true →
     ∃ data,
       correlate_crop_and_climate con' crop_name state subdivision start_year end_year
         = CorrelationJson data ∧
       Forall (λ rec, CropTrend.source_url rec = Some agri_url) (crop_production_trend data) ∧
       Forall (λ t, AverageRainfall.total_source_url t = Some climate_url ∧
                    is_Some (AverageRainfall.total_annual_rainfall t))
         (rainfall_trend data)).
Proof.
  intros (agri & climate & df_agri & df_climate & _ & _ & _ & _ & Ha & Hc & ->)
    %etl_main_complete.
  destruct (agri_table_of_frame parse_float agri agri_url df_agri
              (load_to_duckdb {[ "agriculture_production"%string := df_agri;
                                 "climate_rainfall"%string := df_climate ]} con) Ha)
    as (agriculture & Hscan_a & Hurl_a).
  { rewrite load_to_duckdb_lookup. by rewrite lookup_insert_eq. }
  destruct (climate_table_of_frame parse_float climate climate_url df_climate
              (load_to_duckdb {[ "agriculture_production"%string := df_agri;
                                 "climate_rainfall"%string := df_climate ]} con) Hc)
    as (rainfall & Hscan_c & Hurl_c).
  { rewrite load_to_duckdb_lookup. by rewrite lookup_insert_ne, lookup_singleton_eq. }
  set (con' := load_to_duckdb _ con) in *. clearbody con'.
  split; [|split].
  - intros state year top_m rec _. rewrite records_of_top_crops.
    destruct (TopCrops.query con' state year top_m) as [result|e] eqn:Hq;
      [|intros Hin; by apply elem_of_nil in Hin].
    intros Hin.
    destruct (result_elem _ _ _ _ _ _ _ Hq Hscan_a Hin) as [(r & Hr & Hcrop) Hp].
    apply project_Done in Hp as (_ & _ & ->). unfold TopCrops.group.
    apply any_value_all.
    + intros Hnil%fmap_nil_inv.
      assert (r ∈ filter (λ r', AgricultureProduction.crop r' = TopCrops.crop rec)
                    (filter (λ r, TopCrops.selected state year r = true) agriculture)) as Hg
        by (by apply list_elem_of_filter).
      rewrite Hnil in Hg. by apply elem_of_nil in Hg.
    + apply Forall_fmap. by do 2 apply Forall_filter_keep.
  - intros subdivision start_year end_year _.
    unfold get_average_annual_rainfall, AverageRainfall.query.
    rewrite Hscan_c. cbn [mbind outcome_bind].
    eexists. split; [reflexivity|].
    cbn [AverageRainfall.average_annual_rainfall AverageRainfall.source_url].
    pose proof (yearly_totals_cited
                  (filter (λ r, AverageRainfall.selected subdivision start_year end_year r = true)
                     rainfall) climate_url
                  (Forall_filter_keep _ _ _ Hurl_c)) as Htotals.
    destruct (AverageRainfall.YearlyTotals _) as [|t totals]; [done|].
    assert (is_Some (sql_avg (AverageRainfall.total_annual_rainfall <$> t :: totals)))
      as [avg ->].
    { apply sql_avg_is_Some; [done|]. apply Forall_fmap.
      eapply Forall_impl; [exact Htotals|]. by intros ? [_ ?]. }
    apply any_value_all; [done|]. apply Forall_fmap.
    eapply Forall_impl; [exact Htotals|]. by intros ? [? _].
  - intros crop_name state subdivision start_year end_year _ _ _.
    unfold correlate_crop_and_climate, CropTrend.query, RainfallTrend.query.
    rewrite Hscan_a, Hscan_c. cbn [mbind outcome_bind].
    eexists. split; [reflexivity|]. cbn [crop_production_trend rainfall_trend]. split.
    + rewrite merge_sort_Permutation. apply Forall_fmap, Forall_forall. intros y Hy.
      apply crop_trend_cited; [|done]. by apply Forall_filter_keep.
    + rewrite merge_sort_Permutation. apply yearly_totals_cited.
      by apply Forall_filter_keep.
Qed.

Lemma sample_pipeline_run :
  etl_main parse_decimal (Some sample_agri_records) (Some [full_year_record]) ∅
  = (EtlComplete, sample_con).
Proof. vm_compute. reflexivity. Qed.

Lemma completed_pipeline_makes_the_tools_cite_witness :
  (∀ state year top_m rec,
     sql_literal_safe state = true →
     rec ∈ records_of (get_top_crops_by_production sample_con state year top_m) →
     TopCrops.source_url rec = Some agri_url) ∧
  (∀ subdivision start_year end_year,
     sql_literal_safe subdivision = true →
     ∃ rec,
       get_average_annual_rainfall sample_con subdivision start_year end_year = Json [rec] ∧
       match AverageRainfall.average_annual_rainfall rec with
       | Some _ => AverageRainfall.source_url rec = Some climate_url
       | None => AverageRainfall.source_url rec = None
       end) ∧
  (∀ crop_name state subdivision start_year end_year,
     sql_literal_safe crop_name = true →
     sql_literal_safe state = true →
     sql_literal_safe subdivision = true →
     ∃ data,
       correlate_crop_and_climate sample_con crop_name state subdivision start_year end_year
         = CorrelationJson data ∧
       Forall (λ rec, CropTrend.source_url rec = Some agri_url) (crop_production_trend data) ∧
       Forall (λ t, AverageRainfall.total_source_url t = Some climate_url ∧
                    is_Some (AverageRainfall.total_annual_rainfall t))
         (rainfall_trend data)).
Proof.
  apply (completed_pipeline_makes_the_tools_cite parse_decimal (Some sample_agri_records)
           (Some [full_year_record]) ∅ sample_con).
  exact sample_pipeline_run.
Defined.

(* ===================================================================== *)
(** * The chat loop of agent.py *)
(* ===================================================================== *)

Lemma mjoin_cons {A} (x : list A) (l : list (list A)) : mjoin (x :: l) = x ++ mjoin l.
Proof. reflexivity. Qed.

(** The history entries of the turns in which [asked] got the answers
    [printed]. *)
Lemma chat_loop_turns invoke inputs chat_history printed ending final :
  chat_loop invoke inputs chat_history = (printed, ending, final) →
  ∃ asked,
    length asked = length printed ∧
    Forall (λ q, is_exit q = false) asked ∧
    final = chat_history
            ++ mjoin (zip_with (λ q a, [("human", q); ("ai", a)]%string) asked printed) ∧
    match ending with
    | Exited => ∃ word rest, inputs = asked ++ word :: rest ∧ is_exit word = true
    | EndOfInput => inputs = asked
    | AgentRaised => ∃ q rest, inputs = asked ++ q :: rest ∧ is_exit q = false ∧
                               invoke q final = None
    end.
Proof.
  revert chat_history printed ending final.
  induction inputs as [|user_input inputs IH]; intros chat_history printed ending final;
    cbn [chat_loop].
  - intros [[<- <-]%pair_inv <-]%pair_inv. exists []. by rewrite app_nil_r.
  - destruct (is_exit user_input) eqn:Hexit.
    { intros [[<- <-]%pair_inv <-]%pair_inv. exists []. rewrite app_nil_r.
      repeat split; [constructor|]. by exists user_input, inputs. }
    destruct (invoke user_input chat_history) as [output|] eqn:Hinvoke.
    2:{ intros [[<- <-]%pair_inv <-]%pair_inv. exists []. rewrite app_nil_r.
        repeat split; [constructor|]. by exists user_input, inputs. }
    destruct (chat_loop invoke inputs _) as [[printed' ending'] final'] eqn:Hrest.
    intros [[<- <-]%pair_inv <-]%pair_inv.
    destruct (IH _ _ _ _ Hrest) as (asked & Hlen & Hall & -> & Hend).
    exists (user_input :: asked). split; [by rewrite !length_cons, Hlen|].
    split; [by constructor|]. split.
    + cbn [zip_with mjoin list_join]. by rewrite <- app_assoc.
    + destruct ending' as [| |].
      * destruct Hend as (word & rest & -> & ?). by exists word, rest.
      * by rewrite Hend.
      * destruct Hend as (q & rest & -> & ? & ?). by exists q, rest.
Qed.

(** The chat history grows by one human entry and one ai entry per answered
    input, in the order of the conversation; the inputs asked are those
    before the first exit or quit, in any letter case, and nothing typed
    after it reaches the agent. *)
Theorem chat_loop_records_each_answered_turn invoke inputs printed ending final :
  chat_loop invoke inputs [] = (printed, ending, final) →
  ∃ asked,
    asked `prefix_of` inputs ∧
    Forall (λ q, is_exit q = false) asked ∧
    final = mjoin (zip_with (λ q a, [("human", q); ("ai", a)]%string) asked printed) ∧
    length final = (2 * length printed)%nat ∧
    (ending = Exited → ∃ word, (asked ++ [word]) `prefix_of` inputs ∧
                               lower word ∈ ["exit"; "quit"]%string) ∧
    (ending = EndOfInput → asked = inputs).
Proof.
  intros (asked & Hlen & Hall & -> & Hend)%chat_loop_turns. exists asked.
  split; [|split; [done|split; [done|split; [|split]]]].
  - destruct ending.
    + destruct Hend as (word & rest & -> & _). by eexists.
    + subst inputs. done.
    + destruct Hend as (q & rest & -> & _). by eexists.
  - rewrite app_nil_l. clear Hend Hall. revert printed Hlen.
    induction asked as [|q asked IH]; intros [|a printed] Hlen; try done.
    cbn [zip_with]. rewrite mjoin_cons, length_app, (IH printed) by (by injection Hlen).
    cbn [length]. lia.
  - intros ->. destruct Hend as (word & rest & -> & Hexit). exists word. split.
    + exists rest. by rewrite <- app_assoc.
    + unfold is_exit in Hexit. apply orb_true_iff in Hexit as [H%String.eqb_eq|H%String.eqb_eq];
        rewrite H; [left|right; left].
  - by intros ->.
Qed.

Lemma chat_loop_records_each_answered_turn_witness :
  ∃ asked,
    asked `prefix_of` ["Top crops in Punjab?"; "Quit"; "And in Kerala?"]%string ∧
    Forall (λ q, is_exit q = false) asked ∧
    [("human", "Top crops in Punjab?"); ("ai", "Maize")]%string
      = mjoin (zip_with (λ q a, [("human", q); ("ai", a)]%string) asked ["Maize"%string]) ∧
    length [("human", "Top crops in Punjab?"); ("ai", "Maize")]%string
      = (2 * length ["Maize"%string])%nat ∧
    (Exited = Exited →
       ∃ word, (asked ++ [word])
                 `prefix_of` ["Top crops in Punjab?"; "Quit"; "And in Kerala?"]%string ∧
               lower word ∈ ["exit"; "quit"]%string) ∧
    (Exited = EndOfInput →
       asked = ["Top crops in Punjab?"; "Quit"; "And in Kerala?"]%string).
Proof.
  apply (chat_loop_records_each_answered_turn (λ _ _, Some "Maize"%string)
           ["Top crops in Punjab?"; "Quit"; "And in Kerala?"]%string
           ["Maize"%string] Exited
           [("human", "Top crops in Punjab?"); ("ai", "Maize")]%string).
  reflexivity.
Defined.

(* ===================================================================== *)
(** * The session state of app.py *)
(* ===================================================================== *)

Lemma answered_snoc_user shown prompt :
  answered (shown ++ [("user"%string, prompt)]) = answered shown.
Proof.
  induction shown as [|[role content] shown IH]; [done|].
  destruct shown as [|[role' content'] shown].
  - cbn [app answered]. cbn [String.eqb Ascii.eqb Bool.eqb andb].
    rewrite andb_false_r. by destruct (String.eqb role "assistant").
  - change (((role, content) :: (role', content') :: shown) ++ [("user"%string, prompt)])
      with ((role, content) :: ((role', content') :: shown) ++ [("user"%string, prompt)]).
    change (answered ((role, content) :: (role', content') :: shown))
      with (if String.eqb role "user" && String.eqb role' "assistant"
            then ("human"%string, content) :: answered ((role', content') :: shown)
            else if String.eqb role "assistant"
            then ("ai"%string, content) :: answered ((role', content') :: shown)
            else answered ((role', content') :: shown)).
    rewrite <- IH. reflexivity.
Qed.

Lemma answered_cons_cons role content role' content' shown :
  answered ((role, content) :: (role', content') :: shown) =
  if String.eqb role "user" && String.eqb role' "assistant"
  then ("human"%string, content) :: answered ((role', content') :: shown)
  else if String.eqb role "assistant"
  then ("ai"%string, content) :: answered ((role', content') :: shown)
  else answered ((role', content') :: shown).
Proof. reflexivity. Qed.

Lemma answered_snoc_turn shown prompt ai_response :
  answered (shown ++ [("user"%string, prompt)] ++ [("assistant"%string, ai_response)])
  = answered shown ++ [("human"%string, prompt); ("ai"%string, ai_response)].
Proof.
  induction shown as [|[role content] shown IH]; [done|].
  destruct shown as [|[role' content'] shown].
  - cbn [app answered]. cbn [String.eqb Ascii.eqb Bool.eqb andb].
    rewrite andb_false_r. by destruct (String.eqb role "assistant").
  - rewrite <- !app_comm_cons in *. rewrite !answered_cons_cons, IH.
    by repeat case_match.
Qed.

Lemma rerun_invariant st run :
  chat_history st = answered (messages st) →
  chat_history (rerun st run) = answered (messages (rerun st run)).
Proof.
  intros Hst. unfold rerun. destruct run.1 as [[|c prompt]|]; try done.
  destruct (run.2 _ _) as [ai_response|]; cbn [chat_history messages].
  - by rewrite answered_snoc_turn, Hst.
  - by rewrite answered_snoc_user.
Qed.

Lemma answered_length shown : (length (answered shown) ≤ length shown)%nat.
Proof.
  induction shown as [|[role content] shown IH]; [done|].
  destruct shown as [|[role' content'] shown].
  - cbn [answered]. destruct (String.eqb role "assistant"); cbn [length]; lia.
  - change (answered ((role, content) :: (role', content') :: shown))
      with (if String.eqb role "user" && String.eqb role' "assistant"
            then ("human"%string, content) :: answered ((role', content') :: shown)
            else if String.eqb role "assistant"
            then ("ai"%string, content) :: answered ((role', content') :: shown)
            else answered ((role', content') :: shown)).
    repeat case_match; cbn [length] in *; lia.
Qed.

(** Whatever is submitted and however the agent behaves, the history handed
    to the agent is the conversation shown on the page less the prompts that
    got no answer: a prompt whose call raised stays on the page and never
    enters the history. *)
Theorem session_history_is_the_answered_messages
    (runs : list (option string * (string → list (string * string) → option string))) :
  chat_history (foldl rerun new_session runs)
    = answered (messages (foldl rerun new_session runs)) ∧
  (length (chat_history (foldl rerun new_session runs))
   ≤ length (messages (foldl rerun new_session runs)))%nat.
Proof.
  assert (chat_history (foldl rerun new_session runs)
          = answered (messages (foldl rerun new_session runs))) as H.
  { assert (chat_history new_session = answered (messages new_session)) as H0 by done.
    revert H0. generalize new_session.
    induction runs as [|run runs IH]; intros st Hst; [done|].
    cbn [foldl]. apply IH. by apply rerun_invariant. }
  split; [done|]. rewrite H. apply answered_length.
Qed.

(** A rerun without a prompt changes nothing; a prompt whose call raised
    adds its message and leaves the history as it was. *)
Example session_with_a_failed_call :
  foldl rerun new_session
    [(Some "rain in Punjab?", λ _ _, None);
     (None, λ _ _, None);
     (Some "rain in Punjab?", λ _ _, Some "78.5 mm")]%string
  = {| messages := [("user", "rain in Punjab?"); ("user", "rain in Punjab?");
                    ("assistant", "78.5 mm")]%string;
       chat_history := [("human", "rain in Punjab?"); ("ai", "78.5 mm")]%string |}.
Proof. reflexivity. Qed.
